(** * The rich-text edit-decision logic of the block editor

    A shallow embedding of
    [packages/block-editor/src/components/rich-text/index.js]:
    [addActiveFormats], [getMultilineTag], [splitValue], [onPaste],
    [inputRule] and the key handler [_onKeyDown].

    Host callbacks ([onReplace], [onChange], [onMerge], ...) are effects of
    the handlers; a handler is modelled as the list of callback invocations
    it makes, in program order.  The one place where the file writes into an
    object, [addActiveFormats], is modelled over a store of value objects. *)

From Stdlib Require Import ZArith Ascii String.
From stdpp Require Import base option list gmap strings.

Local Open Scope Z_scope.

(** ** JavaScript strings *)

(** A JS string is a sequence of UTF-16 code units. *)
Definition jsstring := list N.

(** An ASCII literal as a JS string. *)
Fixpoint str (s : string) : jsstring :=
  match s with
  | EmptyString => []
  | String c s' => N_of_ascii c :: str s'
  end.

Module JsString.

(** [s.length] *)
Definition length (s : jsstring) : Z := Z.of_nat (List.length s).

(** Relative index of [String.prototype.slice]: a negative index counts
    from the end, and every index is clamped into [0, len]. *)
Definition relative (len i : Z) : Z :=
  if i <? 0 then Z.max (len + i) 0 else Z.min i len.

(** [s.slice( from, to )] *)
Definition slice (s : jsstring) (from to : Z) : jsstring :=
  let len := length s in
  let from' := relative len from in
  let to' := relative len to in
  take (Z.to_nat (Z.max (to' - from') 0)) (drop (Z.to_nat from') s).

(** White space and line terminators of ECMAScript, the code units that
    [String.prototype.trim] strips. *)
Definition isWhiteSpace (c : N) : bool :=
  let c := Z.of_N c in
  (c =? 9) || (c =? 10) || (c =? 11) || (c =? 12) || (c =? 13) ||
  (c =? 32) || (c =? 160) || (c =? 5760) ||
  ((8192 <=? c) && (c <=? 8202)) ||
  (c =? 8232) || (c =? 8233) || (c =? 8239) || (c =? 8287) ||
  (c =? 12288) || (c =? 65279).

Fixpoint trimStart (s : jsstring) : jsstring :=
  match s with
  | c :: s' => if isWhiteSpace c then trimStart s' else s
  | [] => []
  end.

Definition trimEnd (s : jsstring) : jsstring :=
  reverse (trimStart (reverse s)).

(** [s.trim()] *)
Definition trim (s : jsstring) : jsstring := trimEnd (trimStart s).

(** [a === b] on strings *)
Definition eqb (a b : jsstring) : bool := bool_decide (a = b).

End JsString.

(** ** Rich-text values *)

(** A format descriptor: format name and attributes. *)
Record Format := mkFormat {
  type : string;
  attributes : list (string * string)
}.

#[global] Instance Format_eq_dec : EqDecision Format.
Proof. solve_decision. Defined.

(** A rich-text value [{ formats, text, start, end }].  [formats] is a
    sparse array: an entry is an array of formats or a hole. *)
Record Value := mkValue {
  formats : list (option (list Format));
  text : jsstring;
  start : Z;
  end_ : Z
}.

#[global] Instance Value_eq_dec : EqDecision Value.
Proof. solve_decision. Defined.

Definition setFormats (fs : list (option (list Format))) (v : Value) : Value :=
  {| formats := fs; text := text v; start := start v; end_ := end_ v |}.

(** [formats[ index ] || []]: a hole reads as [undefined]. *)
Definition formatsAt (fs : list (option (list Format))) (index : nat)
  : list Format :=
  default [] (mjoin (fs !! index)).

(** ** The store of value objects *)

Definition loc := positive.
Abbreviation heap := (gmap loc Value).

(** A new object is placed at an address that is not in use. *)
Definition alloc (v : Value) (h : heap) : loc * heap :=
  let l := fresh (dom h) in (l, <[l := v]> h).

(** ** [addActiveFormats] (lines 61-72) *)

(** One iteration of the loop body: [value.formats[ index ] = [ ...activeFormats,
    ...( value.formats[ index ] || [] ) ]]. *)
Definition addActiveFormats_body (activeFormats : list Format) (index : nat)
    (v : Value) : Value :=
  setFormats
    (<[index := Some (activeFormats ++ formatsAt (formats v) index)]>
       (formats v)) v.

(** [while ( index-- ) { ... }]: the test reads [index], then decrements it,
    and the body runs with the decremented index. *)
Fixpoint addActiveFormats_while (value : loc) (activeFormats : list Format)
    (index : nat) (h : heap) : heap :=
  match index with
  | O => h
  | S index' =>
      addActiveFormats_while value activeFormats index'
        (alter (addActiveFormats_body activeFormats index') value h)
  end.

Definition addActiveFormats (value : loc) (activeFormats : list Format)
    (h : heap) : heap :=
  if bool_decide (List.length activeFormats ≠ 0%nat) then
    let index := from_option (fun v => List.length (formats v)) 0%nat (h !! value) in
    addActiveFormats_while value activeFormats index h
  else h.

(** ** Value-model operations the handlers read *)

(** Modelled from the spec: [isEmpty] of the rich-text package, which is not
    part of this file: true iff the text has length 0. *)
Definition isEmpty (v : Value) : bool := JsString.length (text v) =? 0.

(** Modelled from the spec: [isCollapsed] of the rich-text package: true iff
    [start == end]. *)
Definition isCollapsed (v : Value) : bool := start v =? end_ v.

(** ** Props, imports and callbacks *)

(** The [multiline] prop: [?(string|boolean)]. *)
Inductive Multiline :=
| MultilineUndefined
| MultilineBool (b : bool)
| MultilineString (s : jsstring).

#[global] Instance Multiline_eq_dec : EqDecision Multiline.
Proof. solve_decision. Defined.

(** [if ( multiline )]: [true] and non-empty strings are truthy. *)
Definition isTruthy (multiline : Multiline) : bool :=
  match multiline with
  | MultilineUndefined => false
  | MultilineBool b => b
  | MultilineString s => negb (JsString.length s =? 0)
  end.

(** [getMultilineTag] (lines 81-87) *)
Definition getMultilineTag (multiline : Multiline) : option jsstring :=
  if bool_decide (multiline ≠ MultilineBool true)
     && bool_decide (multiline ≠ MultilineString (str "p"))
     && bool_decide (multiline ≠ MultilineString (str "li"))
  then None
  else Some (match multiline with
             | MultilineString s => s
             | _ => str "p"
             end).

(** Key codes of [@wordpress/keycodes]. *)
Definition BACKSPACE : Z := 8.
Definition ENTER : Z := 13.
Definition DELETE : Z := 46.

(** The string ['\n']. *)
Definition NEWLINE : jsstring := [10%N].

(** [__UNSTABLE_LINE_SEPARATOR] of the rich-text package: U+2028. *)
Definition LINE_SEPARATOR : jsstring := [8232%N].

Record KeyboardEvent := mkEvent {
  keyCode : Z;
  shiftKey : bool;
  defaultPrevented : bool
}.

(** The one pattern the file hands to [replace]: [/\n+/g]. *)
Inductive RegExp := NEWLINES.

Inductive Mode := AUTO | INLINE | BLOCKS.

#[global] Instance Mode_eq_dec : EqDecision Mode.
Proof. solve_decision. Defined.

(** Argument of [create]. *)
Record CreateOptions := mkCreate {
  create_html : option jsstring;
  create_text : option jsstring;
  create_multilineTag : option jsstring;
  create_multilineWrapperTags : option (list jsstring);
  create_preserveWhiteSpace : bool
}.

(** Argument of [pasteHandler]. *)
Record PasteHandlerOptions := mkPasteHandler {
  HTML : jsstring;
  paste_plainText : option jsstring;
  mode : Mode;
  paste_tagName : jsstring;
  paste_preserveWhiteSpace : bool
}.

Section RichText.

(** Block payloads, the content a transform is built from, and pasted
    files are opaque to this file. *)
Context {Block Content File : Type}.

(** A block transform, tagged by its [type]. *)
Inductive Transform :=
| EnterTransform (regExp : jsstring -> bool) (transform : jsstring -> Block)
| PrefixTransform (prefix : jsstring) (transform : Content -> Block)
| OtherTransform (kind : string).

(** What the module imports and does not define.  Each is a total function
    of its arguments. *)
Class Imports := {
  (* @wordpress/rich-text *)
  create : CreateOptions -> Value;
  insert : Value -> Value + jsstring -> Value;
  insertLineSeparator : Value -> Value;
  isEmptyLine : Value -> bool;
  replace : Value -> RegExp -> jsstring -> Value;
  split : Value -> Value * Value;
  slice : Value -> Z -> Z -> Value;
  toHTMLString : Value -> option jsstring -> jsstring;
  (* @wordpress/blocks *)
  pasteHandler : PasteHandlerOptions -> jsstring + list Block;
  getBlockTransforms_from : list Transform;
  (* @wordpress/url, @wordpress/shortcode, ./file-paste-handler *)
  isURL : jsstring -> bool;
  isShortcode : jsstring -> bool;
  filePasteHandler : list File -> jsstring
}.

(** Modelled from the spec: [findTransform] of the blocks package
    ([MatchTransform(transforms, predicate) -> Transform | none]): the first
    registered transform the predicate accepts. *)
Definition findTransform (transforms : list Transform)
    (predicate : Transform -> bool) : option Transform :=
  List.find predicate transforms.

(** The props of the component that the handlers read.  A callback prop
    whose calls are effects is recorded by its presence; [onSplit] and
    [onSplitMiddle] return the block they build. *)
Record Props := mkProps {
  onReplace : bool;
  onSplit : option (jsstring -> bool -> Block);
  onSplitMiddle : option (unit -> Block);
  onSplitAtEnd : bool;
  onMerge : bool;
  onRemove : bool;
  multiline : Multiline;
  disableLineBreaks : bool;
  pastePlainText : bool;
  embedURLOnPaste : bool;
  tagName : jsstring;
  preserveWhiteSpace : bool
}.

(** A call the handlers make to the host, the store or the event. *)
Inductive Signal :=
| PreventDefault
| OnReplace (blocks : list Block) (indexToSelect initialPosition : option Z)
| MarkAutomaticChange
| OnChange (value : Value)
| OnSplitAtEnd
| OnMerge (forward : bool)
| OnRemove (forward : bool)
| ConsoleLog (files : list File).

Context `{Imports}.

(** ** [splitValue] (lines 430-500) *)

Definition splitValue (props : Props) (record : Value)
    (pastedBlocks : list Block) : list Signal :=
  match onReplace props, onSplit props with
  | true, Some onSplit_ =>
      let multilineTag := getMultilineTag (multiline props) in
      let blocks : list Block := [] in
      let '(before, after) := split record in
      let hasPastedBlocks := 0 <? Z.of_nat (length pastedBlocks) in
      let lastPastedBlockIndex := -1 in
      let isAfterOriginal := isEmpty before && negb (isEmpty after) in
      let '(blocks, lastPastedBlockIndex) :=
        if negb hasPastedBlocks || negb (isEmpty before) then
          (blocks ++ [onSplit_ (toHTMLString before multilineTag)
                               (negb isAfterOriginal)],
           lastPastedBlockIndex + 1)
        else (blocks, lastPastedBlockIndex) in
      let '(blocks, lastPastedBlockIndex) :=
        if hasPastedBlocks then
          (blocks ++ pastedBlocks,
           lastPastedBlockIndex + Z.of_nat (length pastedBlocks))
        else
          match onSplitMiddle props with
          | Some onSplitMiddle_ =>
              (blocks ++ [onSplitMiddle_ tt], lastPastedBlockIndex)
          | None => (blocks, lastPastedBlockIndex)
          end in
      let blocks :=
        if (if hasPastedBlocks then negb (isEmpty after)
            else negb (bool_decide (is_Some (onSplitMiddle props)))
                 || negb (isEmpty after))
        then blocks ++ [onSplit_ (toHTMLString after multilineTag)
                                 isAfterOriginal]
        else blocks in
      let indexToSelect :=
        if hasPastedBlocks then lastPastedBlockIndex else 1 in
      let initialPosition := if hasPastedBlocks then -1 else 0 in
      [OnReplace blocks (Some indexToSelect) (Some initialPosition)]
  | _, _ => []
  end.


(** ** [_onKeyDown] (lines 158-242) *)

Definition isEnterTransform (t : Transform) : bool :=
  match t with EnterTransform _ _ => true | _ => false end.

(** The on-enter transform check (lines 171-187). *)
Definition enterTransform (props : Props) (_value : Value) : list Signal :=
  if onReplace props then
    let transforms := List.filter isEnterTransform getBlockTransforms_from in
    let transformation :=
      findTransform transforms
        (fun item => match item with
                     | EnterTransform regExp _ => regExp (text _value)
                     | _ => false
                     end) in
    match transformation with
    | Some (EnterTransform _ transform) =>
        [OnReplace [transform (text _value)] None None; MarkAutomaticChange]
    | _ => []
    end
  else [].

(** [onChange( insert( _value, '\n' ) )] unless line breaks are disabled. *)
Definition insertNewline (props : Props) (_value : Value) : list Signal :=
  if negb (disableLineBreaks props) then
    [OnChange (insert _value (inr NEWLINE))]
  else [].

(** The multiline branch (lines 189-198). *)
Definition enterMultiline (props : Props) (event : KeyboardEvent)
    (_value : Value) : list Signal :=
  let canSplit := onReplace props && bool_decide (is_Some (onSplit props)) in
  if shiftKey event then insertNewline props _value
  else if canSplit && isEmptyLine _value then splitValue props _value []
  else [OnChange (insertLineSeparator _value)].

(** [canSplitAtEnd] (lines 201-202). *)
Definition canSplitAtEnd (props : Props) (_value : Value) : bool :=
  onSplitAtEnd props
  && (start _value =? end_ _value)
  && (end_ _value =? JsString.length (text _value)).

(** The single-line branch (lines 199-213). *)
Definition enterSingleLine (props : Props) (event : KeyboardEvent)
    (_value : Value) : list Signal :=
  let canSplit := onReplace props && bool_decide (is_Some (onSplit props)) in
  let canSplitAtEnd := canSplitAtEnd props _value in
  if shiftKey event || (negb canSplit && negb canSplitAtEnd) then
    insertNewline props _value
  else if negb canSplit && canSplitAtEnd then [OnSplitAtEnd]
  else if canSplit then splitValue props _value []
  else [].

(** The Delete/Backspace branch (lines 214-241). *)
Definition deleteOrBackspace (props : Props) (hasActiveFormats : bool)
    (value : Value) (keyCode : Z) : list Signal :=
  let isReverse := keyCode =? BACKSPACE in
  if negb (isCollapsed value)
     || hasActiveFormats
     || (isReverse && negb (start value =? 0))
     || (negb isReverse && negb (end_ value =? JsString.length (text value)))
  then []
  else
    (if onMerge props then [OnMerge (negb isReverse)] else [])
    ++ (if onRemove props && isEmpty value && isReverse
        then [OnRemove (negb isReverse)] else [])
    ++ [PreventDefault].

Definition _onKeyDown (props : Props) (hasActiveFormats : bool)
    (removeEditorOnlyFormats : Value -> Value) (value : Value)
    (event : KeyboardEvent) : list Signal :=
  if defaultPrevented event then []
  else if keyCode event =? ENTER then
    let _value := removeEditorOnlyFormats value in
    [PreventDefault]
    ++ enterTransform props _value
    ++ (if isTruthy (multiline props) then enterMultiline props event _value
        else enterSingleLine props event _value)
  else if (keyCode event =? DELETE) || (keyCode event =? BACKSPACE) then
    deleteOrBackspace props hasActiveFormats value (keyCode event)
  else [].

(** ** [onPaste] (lines 502-620) *)

(** The argument of [onPaste], without [value] and [onChange]. *)
Record PasteEvent := mkPaste {
  html : jsstring;
  plainText : jsstring;
  isInternal : bool;
  files : list File;
  activeFormats : list Format
}.

(** The parse mode handed to [pasteHandler] (lines 556-576). *)
Definition pasteMode (props : Props) (value : Value) (plainText : jsstring)
  : Mode :=
  let mode :=
    if onReplace props && bool_decide (is_Some (onSplit props))
    then AUTO else INLINE in
  let mode :=
    if bool_decide (mode = AUTO) && isEmpty value && isShortcode plainText
    then BLOCKS else mode in
  let mode :=
    if embedURLOnPaste props && isEmpty value
       && isURL (JsString.trim plainText)
    then BLOCKS else mode in
  mode.

(** [onPaste] runs on the store: [value] is the caller's value object,
    [create] returns a new object, and [addActiveFormats] writes into the
    object it is given.  The result is [None] when a reference dangles or
    when [pasteHandler], asked for blocks on a file paste, returns a
    string. *)
Definition onPaste (props : Props) (value : loc) (e : PasteEvent) (h : heap)
  : option (list Signal * heap) :=
  let multilineTag := getMultilineTag (multiline props) in
  if isInternal e then
    let '(pastedValue, h) :=
      alloc (create {| create_html := Some (html e);
                       create_text := None;
                       create_multilineTag := multilineTag;
                       create_multilineWrapperTags :=
                         if bool_decide (multilineTag = Some (str "li"))
                         then Some [str "ul"; str "ol"] else None;
                       create_preserveWhiteSpace := preserveWhiteSpace props |})
            h in
    let h := addActiveFormats pastedValue (activeFormats e) h in
    v ← h !! value;
    pasted ← h !! pastedValue;
    Some ([OnChange (insert v (inl pasted))], h)
  else if pastePlainText props then
    let '(created, h) :=
      alloc (create {| create_html := None;
                       create_text := Some (plainText e);
                       create_multilineTag := None;
                       create_multilineWrapperTags := None;
                       create_preserveWhiteSpace := false |}) h in
    v ← h !! value;
    c ← h !! created;
    Some ([OnChange (insert v (inl c))], h)
  else if (0 <? Z.of_nat (length (files e)))
          && (JsString.length (html e) =? 0) then
    match pasteHandler {| HTML := filePasteHandler (files e);
                          paste_plainText := None;
                          mode := BLOCKS;
                          paste_tagName := tagName props;
                          paste_preserveWhiteSpace := preserveWhiteSpace props |}
    with
    | inr content =>
        v ← h !! value;
        Some (ConsoleLog (files e)
                :: (if onReplace props && isEmpty v
                    then [OnReplace content None None]
                    else splitValue props v content), h)
    | inl _ => None
    end
  else
    v ← h !! value;
    let mode := pasteMode props v (plainText e) in
    let content :=
      pasteHandler {| HTML := html e;
                      paste_plainText := Some (plainText e);
                      mode := mode;
                      paste_tagName := tagName props;
                      paste_preserveWhiteSpace := preserveWhiteSpace props |} in
    match content with
    | inl content =>
        let '(valueToInsert, h) :=
          alloc (create {| create_html := Some content;
                           create_text := None;
                           create_multilineTag := None;
                           create_multilineWrapperTags := None;
                           create_preserveWhiteSpace := false |}) h in
        let h := addActiveFormats valueToInsert (activeFormats e) h in
        created ← h !! valueToInsert;
        let valueToInsert :=
          if bool_decide (is_Some multilineTag)
          then replace created NEWLINES LINE_SEPARATOR
          else created in
        v ← h !! value;
        Some ([OnChange (insert v (inl valueToInsert))], h)
    | inr content =>
        if 0 <? Z.of_nat (length content) then
          Some (if onReplace props && isEmpty v
                then [OnReplace content
                        (Some (Z.of_nat (length content) - 1)) (Some (-1))]
                else splitValue props v content, h)
        else Some ([], h)
    end.

(** The conditions and arguments of [onPaste], named for the statements
    about it: the test of the file branch (line 535) and the arguments of the
    two calls of [pasteHandler] (lines 536-541 and 578-584). *)
Definition isFilePaste (e : PasteEvent) : bool :=
  (0 <? Z.of_nat (length (files e))) && (JsString.length (html e) =? 0).

Definition fileOptions (props : Props) (e : PasteEvent)
  : PasteHandlerOptions :=
  {| HTML := filePasteHandler (files e);
     paste_plainText := None;
     mode := BLOCKS;
     paste_tagName := tagName props;
     paste_preserveWhiteSpace := preserveWhiteSpace props |}.

Definition generalOptions (props : Props) (v : Value) (e : PasteEvent)
  : PasteHandlerOptions :=
  {| HTML := html e;
     paste_plainText := Some (plainText e);
     mode := pasteMode props v (plainText e);
     paste_tagName := tagName props;
     paste_preserveWhiteSpace := preserveWhiteSpace props |}.

(** ** [inputRule] (lines 622-658) *)

Definition isPrefixTransform (t : Transform) : bool :=
  match t with PrefixTransform _ _ => true | _ => false end.

Definition inputRule (props : Props) (value : Value)
    (valueToFormat : Value -> Content) : list Signal :=
  if negb (onReplace props) then []
  else
    let start := start value in
    let text := text value in
    let characterBefore := JsString.slice text (start - 1) start in
    if negb (JsString.eqb characterBefore (str " ")) then []
    else
      let trimmedTextBefore := JsString.trim (JsString.slice text 0 start) in
      let prefixTransforms :=
        List.filter isPrefixTransform getBlockTransforms_from in
      let transformation :=
        findTransform prefixTransforms
          (fun t => match t with
                    | PrefixTransform prefix _ =>
                        JsString.eqb trimmedTextBefore prefix
                    | _ => false
                    end) in
      match transformation with
      | Some (PrefixTransform _ transform) =>
          let content := valueToFormat (slice value start (JsString.length text)) in
          let block := transform content in
          [OnReplace [block] None None; MarkAutomaticChange]
      | _ => []
      end.

End RichText.

Arguments Transform : clear implicits.
Arguments Imports : clear implicits.
Arguments Props : clear implicits.
Arguments Signal : clear implicits.
Arguments PasteEvent : clear implicits.

(** ** [getAllowedFormats] (lines 89-114) and [hasFormats] (lines 398-399) *)

(** A call of [deprecated( feature, ... )]. *)
Inductive Deprecation := Deprecated (feature : string).

(** The result of [getAllowedFormats] and the deprecation warnings it
    raises.  [EMPTY_ARRAY] is the empty array; a missing prop is [None]. *)
Definition getAllowedFormats
    (allowedFormats formattingControls : option (list jsstring))
    (disableFormats : bool) : option (list jsstring) * list Deprecation :=
  if disableFormats then (Some [], [])
  else
    match allowedFormats, formattingControls with
    | None, None => (None, [])
    | Some allowedFormats, _ => (Some allowedFormats, [])
    | None, Some formattingControls =>
        (Some ((fun name => str "core/" ++ name) <$> formattingControls),
         [Deprecated "wp.blockEditor.RichText formattingControls prop"])
    end.

(** [! adjustedAllowedFormats || adjustedAllowedFormats.length > 0] *)
Definition hasFormats (adjustedAllowedFormats : option (list jsstring)) : bool :=
  match adjustedAllowedFormats with
  | None => true
  | Some formats => 0 <? Z.of_nat (length formats)
  end.

(** ** The selection fields of the store selector (lines 337-349, 366-368) *)

Section Selector.

Context {ClientId AttributeKey : Type}.
Context `{EqDecision ClientId, EqDecision AttributeKey}.

(** [getSelectionStart()] and [getSelectionEnd()]: a block, an attribute
    and an offset, each of which may be [undefined] (a value of its type). *)
Record SelectionPoint := mkPoint {
  point_clientId : ClientId;
  attributeKey : AttributeKey;
  offset : option Z
}.

(** [isSelected] is declared without a value and assigned in two of the
    three branches: [None] is [undefined]. *)
Definition selector_isSelected (originalIsSelected : option bool)
    (selectionStart : SelectionPoint) (clientId : ClientId)
    (identifier : AttributeKey) : option bool :=
  match originalIsSelected with
  | None =>
      Some (bool_decide (point_clientId selectionStart = clientId)
            && bool_decide (attributeKey selectionStart = identifier))
  | Some true => Some (bool_decide (point_clientId selectionStart = clientId))
  | Some false => None
  end.

(** The fields [selectionStart], [selectionEnd] and [isSelected] of the
    object the selector returns. *)
Definition selector (originalIsSelected : option bool)
    (selectionStart selectionEnd : SelectionPoint) (clientId : ClientId)
    (identifier : AttributeKey) : option Z * option Z * option bool :=
  let isSelected :=
    selector_isSelected originalIsSelected selectionStart clientId identifier in
  (if bool_decide (isSelected = Some true) then offset selectionStart else None,
   if bool_decide (isSelected = Some true) then offset selectionEnd else None,
   isSelected).

End Selector.

(** ** [RichText.Content] (lines 799-823) and [RichText.isEmpty] (lines 825-827) *)

Section Content.

(** The nodes of the deprecated [children] source and the values of props
    are opaque; [childrenSource.toHTML] is imported. *)
Context {Child PropValue : Type}.
Variable childrenSource_toHTML : list Child -> jsstring.

(** The [value] prop: a string or, deprecated, an array of children. *)
Inductive ContentValue :=
| StringValue (s : jsstring)
| ChildrenValue (children : list Child).

(** What [Content] renders: [<RawHTML>] around a string, possibly inside an
    element [<Tag ...props>]. *)
Inductive Rendered :=
| RawHTML (html : jsstring)
| TagElement (tag : jsstring) (props : gmap string PropValue)
    (children : Rendered).

Definition RichText_Content (value : ContentValue) (Tag : option jsstring)
    (multiline : Multiline) (props : gmap string PropValue) : Rendered :=
  let value :=
    match value with
    | ChildrenValue children => childrenSource_toHTML children
    | StringValue s => s
    end in
  let MultilineTag := getMultilineTag multiline in
  let value :=
    match MultilineTag with
    | Some tag =>
        if JsString.length value =? 0
        then str "<" ++ tag ++ str "></" ++ tag ++ str ">"
        else value
    | None => value
    end in
  let content := RawHTML value in
  match Tag with
  | Some tag =>
      if negb (JsString.length tag =? 0)
      then TagElement tag (delete "format" props) content
      else content
  | None => content
  end.

(** [! value || value.length === 0] for a missing value, a string or an
    array. *)
Definition RichText_isEmpty (value : option ContentValue) : bool :=
  match value with
  | None => true
  | Some (StringValue s) => JsString.length s =? 0
  | Some (ChildrenValue children) => Z.of_nat (length children) =? 0
  end.

End Content.

Arguments ContentValue : clear implicits.
Arguments Rendered : clear implicits.
Arguments SelectionPoint : clear implicits.

(** ** A reference host

    An instance of the imports and props on which the handlers can be
    evaluated.  The value-model operations follow the words of the spec; the
    parsers and the transform registry are small stand-ins. *)

Module Demo.

Inductive DemoBlock :=
| SplitBlock (html : jsstring) (isOriginal : bool)
| MiddleBlock
| PastedBlock (mode : Mode) (source : jsstring)
| TransformedBlock (content : jsstring).

Definition hole (n : nat) : list (option (list Format)) := replicate n None.

Definition plain (s : jsstring) : Value :=
  {| formats := hole (length s); text := s; start := 0; end_ := 0 |}.

Definition demo_create (o : CreateOptions) : Value :=
  plain (default (default [] (create_text o)) (create_html o)).

(** Modelled from the spec: [insert(v, fragmentOrText)] replaces the selected
    range by the fragment and moves the caret to the end of the inserted
    content. *)
Definition demo_insert (v : Value) (x : Value + jsstring) : Value :=
  let fragment := match x with inl f => f | inr s => plain s end in
  let a := Z.to_nat (start v) in
  let b := Z.to_nat (end_ v) in
  let caret := start v + JsString.length (text fragment) in
  {| formats := take a (formats v) ++ formats fragment ++ drop b (formats v);
     text := take a (text v) ++ text fragment ++ drop b (text v);
     start := caret;
     end_ := caret |}.

(** Modelled from the spec: [split(v)] cuts at [start]/[end] and drops the
    selected range. *)
Definition demo_split (v : Value) : Value * Value :=
  let a := Z.to_nat (start v) in
  let b := Z.to_nat (end_ v) in
  ({| formats := take a (formats v); text := take a (text v);
      start := Z.of_nat a; end_ := Z.of_nat a |},
   {| formats := drop b (formats v); text := drop b (text v);
      start := 0; end_ := 0 |}).

(** Modelled from the spec: [slice(v, from, to)] keeps the character range
    [from, to) with its formats. *)
Definition demo_slice (v : Value) (from to : Z) : Value :=
  let a := Z.to_nat from in
  let n := Z.to_nat (to - from) in
  {| formats := take n (drop a (formats v)); text := take n (drop a (text v));
     start := 0; end_ := 0 |}.

(** Modelled from the spec: [isEmptyLine(v)]: the segment around the caret,
    bounded by separators or the text edges, is empty. *)
Definition demo_isEmptyLine (v : Value) : bool :=
  let a := Z.to_nat (start v) in
  isCollapsed v
  && bool_decide (a = 0%nat ∨ text v !! (a - 1)%nat = Some 8232%N)
  && bool_decide (a = length (text v) ∨ text v !! a = Some 8232%N).

Definition demo_replace (v : Value) (r : RegExp) (by_ : jsstring) : Value :=
  {| formats := formats v;
     text := (fun c => if (c =? 10)%N then default c (head by_) else c) <$> text v;
     start := start v; end_ := end_ v |}.

Definition startsWith (p s : jsstring) : bool :=
  bool_decide (take (length p) s = p).

Definition demo_pasteHandler (o : PasteHandlerOptions)
  : jsstring + list DemoBlock :=
  match mode o with
  | INLINE => inl (default (HTML o) (paste_plainText o))
  | m => inr [PastedBlock m (default (HTML o) (paste_plainText o))]
  end.

Definition demo_transforms : list (Transform DemoBlock jsstring) :=
  [ OtherTransform "block";
    PrefixTransform (str "*") TransformedBlock;
    EnterTransform (fun t => JsString.eqb t (str "---")) TransformedBlock;
    PrefixTransform (str "*") (fun _ => MiddleBlock) ].

#[export] Instance demoImports : Imports DemoBlock jsstring string := {|
  create := demo_create;
  insert := demo_insert;
  insertLineSeparator := fun v => demo_insert v (inr LINE_SEPARATOR);
  isEmptyLine := demo_isEmptyLine;
  replace := demo_replace;
  split := demo_split;
  slice := demo_slice;
  toHTMLString := fun v _ => text v;
  pasteHandler := demo_pasteHandler;
  getBlockTransforms_from := demo_transforms;
  isURL := startsWith (str "https://");
  isShortcode := startsWith (str "[");
  filePasteHandler := fun fs => str "<img>"
|}.

(** A host with every capability. *)
Definition fullProps : Props DemoBlock := {|
  onReplace := true;
  onSplit := Some SplitBlock;
  onSplitMiddle := None;
  onSplitAtEnd := true;
  onMerge := true;
  onRemove := true;
  multiline := MultilineUndefined;
  disableLineBreaks := false;
  pastePlainText := false;
  embedURLOnPaste := true;
  tagName := str "p";
  preserveWhiteSpace := false
|}.

(** A host without [onReplace]. *)
Definition noReplaceProps : Props DemoBlock := {|
  onReplace := false;
  onSplit := Some SplitBlock;
  onSplitMiddle := None;
  onSplitAtEnd := false;
  onMerge := true;
  onRemove := true;
  multiline := MultilineUndefined;
  disableLineBreaks := false;
  pastePlainText := false;
  embedURLOnPaste := true;
  tagName := str "p";
  preserveWhiteSpace := false
|}.

(** A multiline host (a list). *)
Definition multilineProps : Props DemoBlock := {|
  onReplace := true;
  onSplit := Some SplitBlock;
  onSplitMiddle := Some (fun _ => MiddleBlock);
  onSplitAtEnd := false;
  onMerge := true;
  onRemove := true;
  multiline := MultilineString (str "li");
  disableLineBreaks := false;
  pastePlainText := false;
  embedURLOnPaste := false;
  tagName := str "ul";
  preserveWhiteSpace := false
|}.

(** A host with [onSplitAtEnd] only. *)
Definition splitAtEndProps : Props DemoBlock := {|
  onReplace := false;
  onSplit := None;
  onSplitMiddle := None;
  onSplitAtEnd := true;
  onMerge := false;
  onRemove := false;
  multiline := MultilineUndefined;
  disableLineBreaks := false;
  pastePlainText := false;
  embedURLOnPaste := false;
  tagName := str "p";
  preserveWhiteSpace := false
|}.

Definition bold : Format := {| type := "core/bold"; attributes := [] |}.

Definition emptyValue : Value := plain [].

Definition caretAt (s : jsstring) (n : Z) : Value :=
  {| formats := hole (length s); text := s; start := n; end_ := n |}.

Definition keyEvent (k : Z) : KeyboardEvent :=
  {| keyCode := k; shiftKey := false; defaultPrevented := false |}.

(** The store that holds [v] at address 1 and nothing else. *)
Definition heapOf (v : Value) : heap := {[1%positive := v]}.

Definition shiftEnter : KeyboardEvent :=
  {| keyCode := ENTER; shiftKey := true; defaultPrevented := false |}.

Definition internal (html : jsstring) : PasteEvent string :=
  {| html := html; plainText := html; isInternal := true;
     files := []; activeFormats := [bold] |}.

Definition filesOnly (fs : list string) : PasteEvent string :=
  {| html := []; plainText := []; isInternal := false;
     files := fs; activeFormats := [] |}.

Definition general (plainText : jsstring) : PasteEvent string :=
  {| html := []; plainText := plainText; isInternal := false;
     files := []; activeFormats := [] |}.

(** A single-line host that disables line breaks, and one that pastes
    plain text only. *)
Definition noLineBreaksProps : Props DemoBlock := {|
  onReplace := false;
  onSplit := None;
  onSplitMiddle := None;
  onSplitAtEnd := false;
  onMerge := false;
  onRemove := false;
  multiline := MultilineUndefined;
  disableLineBreaks := true;
  pastePlainText := false;
  embedURLOnPaste := false;
  tagName := str "p";
  preserveWhiteSpace := false
|}.

Definition plainTextProps : Props DemoBlock := {|
  onReplace := true;
  onSplit := Some SplitBlock;
  onSplitMiddle := None;
  onSplitAtEnd := false;
  onMerge := false;
  onRemove := false;
  multiline := MultilineUndefined;
  disableLineBreaks := false;
  pastePlainText := true;
  embedURLOnPaste := false;
  tagName := str "p";
  preserveWhiteSpace := false
|}.

(** The reference imports with a parser that finds no block. *)
Definition emptyParserImports : Imports DemoBlock jsstring string := {|
  create := demo_create;
  insert := demo_insert;
  insertLineSeparator := fun v => demo_insert v (inr LINE_SEPARATOR);
  isEmptyLine := demo_isEmptyLine;
  replace := demo_replace;
  split := demo_split;
  slice := demo_slice;
  toHTMLString := fun v _ => text v;
  pasteHandler := fun _ => inr [];
  getBlockTransforms_from := demo_transforms;
  isURL := startsWith (str "https://");
  isShortcode := startsWith (str "[");
  filePasteHandler := fun fs => str "<img>"
|}.

(** A paste of bold HTML with its plain text, bold being active. *)
Definition boldPaste : PasteEvent string :=
  {| html := str "<b>x</b>"; plainText := str "x"; isInternal := false;
     files := []; activeFormats := [bold] |}.

(** An event that an earlier handler has consumed. *)
Definition consumed (k : Z) : KeyboardEvent :=
  {| keyCode := k; shiftKey := false; defaultPrevented := true |}.

(** A selection that starts in block 7 and ends in block 9. *)
Definition startPoint : SelectionPoint nat string :=
  {| point_clientId := 7%nat; attributeKey := "content"; offset := Some 3 |}.

Definition endPoint : SelectionPoint nat string :=
  {| point_clientId := 9%nat; attributeKey := "content"; offset := Some 5 |}.

End Demo.

(** * Properties *)

(** ** The format reconciler *)

Section AddActiveFormats.

Implicit Types (h : heap) (v : Value) (value l : loc).
Implicit Types (activeFormats : list Format).

Lemma setFormats_id v : setFormats (formats v) v = v.
Proof. by destruct v. Qed.

(** What the loop has done once it has counted [index] down to 0: the
    entries below [index] carry the active formats in front of what they
    held, the entries from [index] on are as they were. *)
Lemma addActiveFormats_while_spec value activeFormats index :
  ∀ h v,
    h !! value = Some v →
    (index ≤ length (formats v))%nat →
    ∃ fs,
      addActiveFormats_while value activeFormats index h
        = <[value := setFormats fs v]> h
      ∧ length fs = length (formats v)
      ∧ (∀ i, (i < index)%nat →
           fs !! i = Some (Some (activeFormats ++ formatsAt (formats v) i)))
      ∧ (∀ i, (index ≤ i)%nat → fs !! i = formats v !! i).
Proof.
  induction index as [|index IH]; intros h v Hv Hle; simpl.
  - exists (formats v). rewrite setFormats_id, insert_id by done.
    split; [done|]. split; [done|]. split; [intros i Hi; lia|done].
  - set (v1 := addActiveFormats_body activeFormats index v).
    assert (Hh1 : alter (addActiveFormats_body activeFormats index) value h
                  = <[value := v1]> h).
    { apply map_eq. intros l. rewrite lookup_alter, lookup_insert.
      destruct (decide (value = l)) as [->|]; [by rewrite Hv|done]. }
    rewrite Hh1.
    assert (Hlen1 : length (formats v1) = length (formats v)).
    { unfold v1, addActiveFormats_body. simpl. by rewrite length_insert. }
    destruct (IH (<[value := v1]> h) v1) as (fs & Heq & Hlen & Hlt & Hge).
    { by rewrite lookup_insert_eq. }
    { lia. }
    exists fs. rewrite Heq, insert_insert_eq.
    split; [done|]. split; [lia|]. split.
    + intros i Hi. destruct (decide (i = index)) as [->|Hne].
      * rewrite Hge by lia. unfold v1, addActiveFormats_body. simpl.
        rewrite list_lookup_insert_eq by lia. done.
      * rewrite Hlt by lia. do 3 f_equal.
        unfold formatsAt, v1, addActiveFormats_body. simpl.
        by rewrite list_lookup_insert_ne.
    + intros i Hi. rewrite Hge by lia.
      unfold v1, addActiveFormats_body. simpl.
      rewrite list_lookup_insert_ne by lia. done.
Qed.

(** The value object after [addActiveFormats]: same text and selection, and
    as many format entries, each with the active formats in front. *)
Lemma addActiveFormats_lookup value activeFormats h v :
  h !! value = Some v →
  ∃ fs,
    addActiveFormats value activeFormats h = <[value := setFormats fs v]> h
    ∧ length fs = length (formats v)
    ∧ ∀ i, (i < length (formats v))%nat →
        formatsAt fs i = activeFormats ++ formatsAt (formats v) i.
Proof.
  intros Hv. unfold addActiveFormats. case_bool_decide as Hne.
  - rewrite Hv. simpl.
    destruct (addActiveFormats_while_spec value activeFormats
                (length (formats v)) h v Hv) as (fs & Heq & Hlen & Hlt & _).
    { lia. }
    exists fs. split; [done|]. split; [done|].
    intros i Hi. unfold formatsAt at 1. by rewrite Hlt.
  - exists (formats v). rewrite setFormats_id, insert_id by done.
    split; [done|]. split; [done|]. intros i _.
    destruct activeFormats; [done|]. simpl in Hne. lia.
Qed.

(** [addActiveFormats] writes to no object but the one it is given. *)
Lemma addActiveFormats_other value activeFormats h l :
  l ≠ value → addActiveFormats value activeFormats h !! l = h !! l.
Proof.
  intros Hne. destruct (h !! value) as [v|] eqn:Hv.
  - destruct (addActiveFormats_lookup value activeFormats h v Hv)
      as (fs & -> & _). by rewrite lookup_insert_ne.
  - unfold addActiveFormats. rewrite Hv. simpl. by case_bool_decide.
Qed.

(** **** C9 *)

(** C9. [addActiveFormats( value, activeFormats )] puts [activeFormats] in
    front of the formats already present at every character position of
    [value] (what was there stays behind them, and a hole counts as no
    formats), and it does not deduplicate: after a second call with the same
    [activeFormats] every position carries them twice at the front. *)
Theorem addActiveFormats_prepends value activeFormats h v :
  h !! value = Some v →
  ∃ v1 v2,
    addActiveFormats value activeFormats h !! value = Some v1
    ∧ length (formats v1) = length (formats v)
    ∧ (∀ i, (i < length (formats v))%nat →
         formatsAt (formats v1) i = activeFormats ++ formatsAt (formats v) i)
    ∧ addActiveFormats value activeFormats
        (addActiveFormats value activeFormats h) !! value = Some v2
    ∧ length (formats v2) = length (formats v)
    ∧ (∀ i, (i < length (formats v))%nat →
         formatsAt (formats v2) i
         = activeFormats ++ activeFormats ++ formatsAt (formats v) i).
Proof.
  intros Hv.
  destruct (addActiveFormats_lookup value activeFormats h v Hv)
    as (fs1 & Heq1 & Hlen1 & Hat1).
  set (v1 := setFormats fs1 v).
  assert (Hv1 : addActiveFormats value activeFormats h !! value = Some v1).
  { by rewrite Heq1, lookup_insert_eq. }
  destruct (addActiveFormats_lookup value activeFormats _ v1 Hv1)
    as (fs2 & Heq2 & Hlen2 & Hat2).
  exists v1, (setFormats fs2 v1). simpl in *.
  split; [done|]. split; [done|]. split; [done|].
  split; [by rewrite Heq2, lookup_insert_eq|]. split; [lia|].
  intros i Hi. rewrite Hat2 by lia. by rewrite Hat1.
Qed.

End AddActiveFormats.

(** C9 at a two-character value and the active format bold. *)
Lemma addActiveFormats_prepends_witness :
  Demo.heapOf (Demo.plain (str "ab")) !! 1%positive
    = Some (Demo.plain (str "ab"))
  ∧ ∃ v1 v2,
      addActiveFormats 1%positive [Demo.bold] (Demo.heapOf (Demo.plain (str "ab")))
        !! 1%positive = Some v1
      ∧ length (formats v1) = 2%nat
      ∧ (∀ i, (i < 2)%nat → formatsAt (formats v1) i = [Demo.bold] ++ [])
      ∧ addActiveFormats 1%positive [Demo.bold]
          (addActiveFormats 1%positive [Demo.bold]
             (Demo.heapOf (Demo.plain (str "ab")))) !! 1%positive = Some v2
      ∧ length (formats v2) = 2%nat
      ∧ (∀ i, (i < 2)%nat →
           formatsAt (formats v2) i = [Demo.bold] ++ [Demo.bold] ++ []).
Proof.
  split; [reflexivity|].
  destruct (addActiveFormats_prepends 1%positive [Demo.bold]
              (Demo.heapOf (Demo.plain (str "ab"))) (Demo.plain (str "ab"))
              eq_refl)
    as (v1 & v2 & H1 & L1 & F1 & H2 & L2 & F2).
  exists v1, v2. split; [exact H1|]. split; [exact L1|].
  split.
  { intros i Hi. rewrite (F1 i Hi).
    destruct i as [|[|i]]; [reflexivity|reflexivity|simpl in Hi; lia]. }
  split; [exact H2|]. split; [exact L2|].
  intros i Hi. rewrite (F2 i Hi).
  destruct i as [|[|i]]; [reflexivity|reflexivity|simpl in Hi; lia].
Defined.

(** ** The handlers *)

Section Handlers.

Context {Block Content File : Type} `{!Imports Block Content File}.

Implicit Types (props : Props Block) (h : heap) (v record : Value).
Implicit Types (value : loc) (e : PasteEvent File).

(** *** Paste *)

(** [create] followed by [addActiveFormats]: the new object sits at an
    address that was free, and nothing else has changed. *)
Lemma create_addActiveFormats (c : Value) activeFormats h :
  ∃ fs,
    h !! fresh (dom h) = None
    ∧ addActiveFormats (fresh (dom h)) activeFormats (<[fresh (dom h) := c]> h)
      = <[fresh (dom h) := setFormats fs c]> h.
Proof.
  assert (Hfresh : h !! fresh (dom h) = None).
  { apply not_elem_of_dom, is_fresh. }
  destruct (addActiveFormats_lookup (fresh (dom h)) activeFormats
              (<[fresh (dom h) := c]> h) c) as (fs & Heq & _).
  { by rewrite lookup_insert_eq. }
  exists fs. split; [done|]. by rewrite Heq, insert_insert_eq.
Qed.

Lemma lookup_insert_fresh h value v (c : Value) :
  h !! value = Some v → <[fresh (dom h) := c]> h !! value = Some v.
Proof.
  intros Hv. rewrite lookup_insert_ne; [done|].
  intros Heq. assert (h !! fresh (dom h) = None) as Hnone
    by apply not_elem_of_dom, is_fresh.
  rewrite Heq in Hnone. congruence.
Qed.

(** [splitValue] does nothing for a host without [onReplace] or [onSplit]. *)
Lemma splitValue_guard props record pastedBlocks :
  onReplace props = false ∨ onSplit props = None →
  splitValue props record pastedBlocks = [].
Proof.
  intros [Hr|Hs]; unfold splitValue.
  - by rewrite Hr.
  - rewrite Hs. by destruct (onReplace props).
Qed.

(** [onPaste] returns, and every object of the store is afterwards what it
    was; the one exception is a file paste for which [pasteHandler] returns
    a string. *)
Lemma onPaste_frame props value e h v :
  h !! value = Some v →
  match onPaste props value e h with
  | Some (_, h') => h ⊆ h'
  | None =>
      isInternal e = false ∧ pastePlainText props = false
      ∧ isFilePaste e = true
      ∧ ∃ s, pasteHandler (fileOptions props e) = inl s
  end.
Proof.
  intros Hv. unfold onPaste, alloc.
  destruct (isInternal e) eqn:Hint.
  { match goal with |- context [addActiveFormats _ ?a (<[_ := ?c]> _)] =>
      destruct (create_addActiveFormats c a h) as (fs & Hnone & ->) end.
    rewrite (lookup_insert_fresh h value v _ Hv). simpl.
    rewrite lookup_insert_eq. simpl. by apply insert_subseteq. }
  destruct (pastePlainText props) eqn:Hplain.
  { rewrite (lookup_insert_fresh h value v _ Hv). simpl.
    rewrite lookup_insert_eq. simpl.
    apply insert_subseteq, not_elem_of_dom, is_fresh. }
  fold (isFilePaste e). fold (fileOptions props e).
  destruct (isFilePaste e) eqn:Hfile.
  { destruct (pasteHandler (fileOptions props e)) as [s|content] eqn:Hc.
    - eauto.
    - rewrite Hv. simpl. done. }
  rewrite Hv. simpl. fold (generalOptions props v e).
  destruct (pasteHandler (generalOptions props v e)) as [s|content].
  - match goal with |- context [addActiveFormats _ ?a (<[_ := ?c]> _)] =>
      destruct (create_addActiveFormats c a h) as (fs & Hnone & ->) end.
    rewrite lookup_insert_eq. simpl.
    rewrite (lookup_insert_fresh h value v _ Hv). simpl.
    by apply insert_subseteq.
  - by destruct (0 <? Z.of_nat (length content)).
Qed.

(** **** C2 *)

(** C2, as amended.  The handlers do not write into the caller's Value: when
    [onPaste] returns, every value object of the store, the caller's
    included, has the text, formats and selection it had ([splitValue],
    [inputRule] and [_onKeyDown] take their values by value and write
    nothing).  [addActiveFormats] is the exception: it overwrites the formats
    of the object it is given, in place; text and selection stay and no other
    object is touched.  [onPaste] applies it to the fragment it has just
    created only.  ([onPaste] returns unless a file paste is parsed to a
    string.) *)
Theorem value_written_only_by_addActiveFormats props value e h v :
  h !! value = Some v →
  (∀ activeFormats, ∃ fs,
     addActiveFormats value activeFormats h = <[value := setFormats fs v]> h)
  ∧ match onPaste props value e h with
    | Some (_, h') => h' !! value = Some v ∧ h ⊆ h'
    | None =>
        isInternal e = false ∧ pastePlainText props = false
        ∧ isFilePaste e = true
        ∧ ∃ s, pasteHandler (fileOptions props e) = inl s
    end.
Proof.
  intros Hv. split.
  - intros activeFormats.
    destruct (addActiveFormats_lookup value activeFormats h v Hv)
      as (fs & Heq & _). eauto.
  - pose proof (onPaste_frame props value e h v Hv) as Hframe.
    destruct (onPaste props value e h) as [[sigs h']|]; [|done].
    split; [|done]. by eapply lookup_weaken.
Qed.

(** **** C10 *)

(** C10.  When a paste is parsed to blocks and goes to [splitValue] (the
    Value is not empty or there is no [onReplace]) on a host without
    [onReplace] or without [onSplit], [splitValue] returns at its guard: no
    callback of the host is called, the blocks are dropped and the store is
    as it was.  (The file branch has logged the files by then.) *)
Theorem paste_dropped_without_split_capability props value e h v content :
  h !! value = Some v →
  isInternal e = false →
  pastePlainText props = false →
  onReplace props = false ∨ onSplit props = None →
  onReplace props && isEmpty v = false →
  splitValue props v content = []
  ∧ (isFilePaste e = true →
     pasteHandler (fileOptions props e) = inr content →
     onPaste props value e h = Some ([ConsoleLog (files e)], h))
  ∧ (isFilePaste e = false →
     pasteHandler (generalOptions props v e) = inr content →
     onPaste props value e h = Some ([], h)).
Proof.
  intros Hv Hint Hplain Hcap Hroute.
  pose proof (splitValue_guard props v content Hcap) as Hsplit.
  split; [done|].
  unfold onPaste. rewrite Hint, Hplain.
  fold (isFilePaste e). fold (fileOptions props e).
  split; intros Hfile Hcontent; rewrite Hfile.
  - rewrite Hcontent, Hv. simpl. by rewrite Hroute, Hsplit.
  - rewrite Hv. simpl. fold (generalOptions props v e).
    rewrite Hcontent, Hroute, Hsplit.
    by destruct (0 <? Z.of_nat (length content)).
Qed.

(** **** C6 *)

(** C6, as amended.  For a general paste the parse mode is [AUTO] when
    [onReplace] and [onSplit] are both present and [INLINE] otherwise.  It
    becomes [BLOCKS] when (a) the mode is [AUTO], the Value is empty and the
    plain text looks like a shortcode, or (b) URL embedding on paste is on,
    the Value is empty and the trimmed plain text is a URL, whatever the
    capabilities.  This is the mode [pasteHandler] is called with, and a
    non-empty block list it returns replaces the empty Value or is split
    in. *)
Theorem pasteMode_spec props value e h v :
  h !! value = Some v →
  isInternal e = false →
  pastePlainText props = false →
  isFilePaste e = false →
  let canSplit := onReplace props && bool_decide (is_Some (onSplit props)) in
  let shortcode := isEmpty v && isShortcode (plainText e) in
  let url :=
    embedURLOnPaste props && isEmpty v && isURL (JsString.trim (plainText e)) in
  pasteMode props v (plainText e)
    = (if url || (canSplit && shortcode) then BLOCKS
       else if canSplit then AUTO else INLINE)
  ∧ mode (generalOptions props v e) = pasteMode props v (plainText e)
  ∧ ∀ content,
      pasteHandler (generalOptions props v e) = inr content →
      content ≠ [] →
      onPaste props value e h
      = Some (if onReplace props && isEmpty v
              then [OnReplace content
                      (Some (Z.of_nat (length content) - 1)) (Some (-1))]
              else splitValue props v content, h).
Proof.
  intros Hv Hint Hplain Hfile. simpl. split; [|split; [done|]].
  - unfold pasteMode.
    destruct (onReplace props), (onSplit props), (isEmpty v),
      (isShortcode (plainText e)), (embedURLOnPaste props),
      (isURL (JsString.trim (plainText e))); reflexivity.
  - intros content Hcontent Hne. unfold onPaste. rewrite Hint, Hplain.
    fold (isFilePaste e). rewrite Hfile, Hv. simpl.
    fold (generalOptions props v e). rewrite Hcontent.
    destruct content; [done|]. reflexivity.
Qed.

(** *** Block splitting *)

(** The block list of [splitValue], unit by unit. *)
Lemma splitValue_eq props record pastedBlocks onSplit_ :
  onReplace props = true →
  onSplit props = Some onSplit_ →
  let multilineTag := getMultilineTag (multiline props) in
  let before := (split record).1 in
  let after := (split record).2 in
  let isAfterOriginal := isEmpty before && negb (isEmpty after) in
  let hasPastedBlocks := bool_decide (pastedBlocks ≠ []) in
  let beforeUnit :=
    if isEmpty before && hasPastedBlocks then []
    else [onSplit_ (toHTMLString before multilineTag) (negb isAfterOriginal)] in
  let middle :=
    if hasPastedBlocks then pastedBlocks
    else match onSplitMiddle props with
         | Some onSplitMiddle_ => [onSplitMiddle_ tt]
         | None => []
         end in
  let afterUnit :=
    if (if hasPastedBlocks then isEmpty after
        else bool_decide (is_Some (onSplitMiddle props)) && isEmpty after)
    then []
    else [onSplit_ (toHTMLString after multilineTag) isAfterOriginal] in
  splitValue props record pastedBlocks
  = [OnReplace (beforeUnit ++ middle ++ afterUnit)
       (Some (if hasPastedBlocks
              then Z.of_nat (length beforeUnit + length pastedBlocks) - 1
              else 1))
       (Some (if hasPastedBlocks then -1 else 0))].
Proof.
  intros Hr Hs. unfold splitValue. rewrite Hr, Hs.
  destruct (split record) as [before after]. simpl.
  destruct pastedBlocks as [|b pastedBlocks];
    destruct (isEmpty before), (isEmpty after),
      (onSplitMiddle props) as [onSplitMiddle_|];
    simpl; f_equal; f_equal; rewrite ?app_nil_r; try done; f_equal; lia.
Qed.

Lemma splitValue_cases props record pastedBlocks :
  splitValue props record pastedBlocks = []
  ∨ ∃ blocks i p, splitValue props record pastedBlocks = [OnReplace blocks i p].
Proof.
  destruct (onReplace props) eqn:Hr;
    [destruct (onSplit props) as [onSplit_|] eqn:Hs|].
  - right. rewrite (splitValue_eq _ _ _ onSplit_ Hr Hs). eauto.
  - left. apply splitValue_guard. by right.
  - left. apply splitValue_guard. by left.
Qed.

(** **** C1 *)

(** C1, as amended.  On a host with [onReplace] and [onSplit], [splitValue]
    hands [onReplace] the "before" unit, then the pasted blocks or else the
    result of the middle hook, then the "after" unit.  The "before" unit is
    left out exactly when it is empty and there ARE pasted blocks (a split
    without pasted blocks keeps an empty "before" unit).  The "after" unit is
    left out, with pasted blocks, when it is empty; without pasted blocks,
    only when a middle hook exists and it is empty. *)
Theorem splitValue_blocks props record pastedBlocks onSplit_ :
  onReplace props = true →
  onSplit props = Some onSplit_ →
  let multilineTag := getMultilineTag (multiline props) in
  let before := (split record).1 in
  let after := (split record).2 in
  let isAfterOriginal := isEmpty before && negb (isEmpty after) in
  ∃ beforeUnit middle afterUnit indexToSelect initialPosition,
    splitValue props record pastedBlocks
    = [OnReplace (beforeUnit ++ middle ++ afterUnit)
         indexToSelect initialPosition]
    ∧ (beforeUnit = [] ↔ isEmpty before = true ∧ pastedBlocks ≠ [])
    ∧ (beforeUnit ≠ [] →
       beforeUnit = [onSplit_ (toHTMLString before multilineTag)
                              (negb isAfterOriginal)])
    ∧ middle = (if bool_decide (pastedBlocks ≠ []) then pastedBlocks
                else match onSplitMiddle props with
                     | Some onSplitMiddle_ => [onSplitMiddle_ tt]
                     | None => []
                     end)
    ∧ (afterUnit = [] ↔
       isEmpty after = true
       ∧ (pastedBlocks ≠ [] ∨ is_Some (onSplitMiddle props)))
    ∧ (afterUnit ≠ [] →
       afterUnit = [onSplit_ (toHTMLString after multilineTag)
                             isAfterOriginal]).
Proof.
  intros Hr Hs. simpl.
  rewrite (splitValue_eq props record pastedBlocks onSplit_ Hr Hs).
  do 5 eexists. split; [reflexivity|].
  destruct (split record) as [before after]. simpl.
  destruct (isEmpty before), (isEmpty after); simpl;
    destruct pastedBlocks as [|b pastedBlocks]; simpl;
    destruct (onSplitMiddle props) as [m|]; simpl;
    repeat split; try done; try (intros [? [?|[? ?]]]; done);
    try (intros _; split; [done|]; eauto); try (intros [? ?]; done);
    try (by left); try (right; eauto).
Qed.

(** *** Keys *)

(** Membership in an explicit list of signals, by cases. *)
Ltac elem_cases :=
  simpl; rewrite ?elem_of_app, ?elem_of_cons, ?elem_of_nil;
  intuition (try discriminate; try congruence).

Implicit Types (event : KeyboardEvent) (hasActiveFormats : bool).
Implicit Types (removeEditorOnlyFormats : Value → Value).

Lemma enterTransform_cases props _value :
  enterTransform props _value = []
  ∨ ∃ block,
      enterTransform props _value
      = [OnReplace [block] None None; MarkAutomaticChange].
Proof.
  unfold enterTransform. destruct (onReplace props); [|by left].
  destruct (findTransform _ _) as [[]|]; eauto.
Qed.

(** The signals of the Enter key are [onReplace], the automatic-change mark,
    [onChange] and [onSplitAtEnd]: never a merge or a remove. *)
Lemma enter_no_merge_or_remove props event _value s :
  s ∈ enterTransform props _value
      ++ (if isTruthy (multiline props) then enterMultiline props event _value
          else enterSingleLine props event _value) →
  ∀ forward, s ≠ OnRemove forward ∧ s ≠ OnMerge forward.
Proof.
  intros Hin forward. revert Hin.
  destruct (enterTransform_cases props _value) as [->|[block ->]];
    unfold enterMultiline, enterSingleLine, insertNewline;
    destruct (splitValue_cases props _value []) as [->|(bs & i & p & ->)];
    repeat match goal with
           | |- context [if ?c then _ else _] => destruct c
           end;
    rewrite ?elem_of_app, ?elem_of_cons, ?elem_of_nil;
    intros Hin; split; intros Heq; subst s;
    repeat (destruct Hin as [Hin|Hin]; try done).
Qed.

(** **** C3 *)

(** C3.  A remove signal comes from the Backspace key only, and it is
    backward.  For a live key event (one that no earlier handler has
    consumed) with a collapsed selection, no active formats and the caret at
    offset 0: Backspace on an empty Value with [onRemove] produces
    [onRemove( false )], after [onMerge( false )] when [onMerge] exists.
    Delete never produces a remove signal. *)
Theorem remove_only_on_Backspace props hasActiveFormats
    removeEditorOnlyFormats v event :
  (∀ forward,
     OnRemove forward
       ∈ _onKeyDown props hasActiveFormats removeEditorOnlyFormats v event →
     keyCode event = BACKSPACE ∧ forward = false)
  ∧ (defaultPrevented event = false →
     keyCode event = BACKSPACE →
     isCollapsed v = true →
     hasActiveFormats = false →
     start v = 0 →
     onRemove props = true →
     isEmpty v = true →
     _onKeyDown props hasActiveFormats removeEditorOnlyFormats v event
     = (if onMerge props then [OnMerge false] else [])
       ++ [OnRemove false; PreventDefault])
  ∧ (keyCode event = DELETE →
     ∀ forward,
       OnRemove forward
         ∉ _onKeyDown props hasActiveFormats removeEditorOnlyFormats v event).
Proof.
  assert (Honly : ∀ forward,
     OnRemove forward
       ∈ _onKeyDown props hasActiveFormats removeEditorOnlyFormats v event →
     keyCode event = BACKSPACE ∧ forward = false).
  { intros forward. unfold _onKeyDown.
    destruct (defaultPrevented event); [by rewrite elem_of_nil|].
    destruct (keyCode event =? ENTER) eqn:Henter.
    { rewrite elem_of_app, list_elem_of_singleton. intros [Heq|Hin]; [done|].
      by destruct (enter_no_merge_or_remove _ _ _ _ Hin forward). }
    destruct ((keyCode event =? DELETE) || (keyCode event =? BACKSPACE));
      [|by rewrite elem_of_nil].
    unfold deleteOrBackspace.
    destruct (negb (isCollapsed v) || hasActiveFormats || _ || _);
      [by rewrite elem_of_nil|].
    destruct (keyCode event =? BACKSPACE) eqn:Hback.
    - apply Z.eqb_eq in Hback.
      destruct (onMerge props), (onRemove props && isEmpty v && true);
        elem_cases.
    - rewrite andb_false_r.
      destruct (onMerge props);
        elem_cases. }
  split; [exact Honly|]. split.
  - intros Hlive Hkey Hcoll Hfmt Hstart Hrem Hempty.
    unfold _onKeyDown, deleteOrBackspace.
    rewrite Hlive, Hkey, Hcoll, Hfmt, Hstart, Hrem, Hempty. reflexivity.
  - intros Hkey forward Hin. apply Honly in Hin as [Hback _].
    rewrite Hkey in Hback. discriminate.
Qed.

(** **** C4 *)

(** C4.  For a live Backspace or Delete event, the handler does nothing (no
    signal, the event is not intercepted) unless the selection is collapsed,
    no formats are active and the caret is at offset 0 (Backspace) or at the
    end of the text (Delete).  When all three hold and [onMerge] exists,
    exactly one merge signal is produced: backward for Backspace, forward for
    Delete; the event is then intercepted. *)
Theorem delete_backspace_merge props hasActiveFormats
    removeEditorOnlyFormats v event :
  defaultPrevented event = false →
  keyCode event = BACKSPACE ∨ keyCode event = DELETE →
  let atBoundary :=
    if bool_decide (keyCode event = BACKSPACE)
    then bool_decide (start v = 0)
    else bool_decide (end_ v = JsString.length (text v)) in
  (¬ (isCollapsed v = true ∧ hasActiveFormats = false
      ∧ atBoundary = true) →
   _onKeyDown props hasActiveFormats removeEditorOnlyFormats v event = [])
  ∧ (isCollapsed v = true →
     hasActiveFormats = false →
     atBoundary = true →
     onMerge props = true →
     ∃ rest,
       _onKeyDown props hasActiveFormats removeEditorOnlyFormats v event
       = OnMerge (bool_decide (keyCode event = DELETE)) :: rest
       ∧ (∀ forward, OnMerge forward ∉ rest)
       ∧ PreventDefault ∈ rest).
Proof.
  intros Hlive Hkey. simpl.
  unfold _onKeyDown, deleteOrBackspace. rewrite Hlive.
  destruct Hkey as [Hkey|Hkey]; rewrite Hkey; simpl.
  - split.
    + intros Hnot.
      destruct (isCollapsed v) eqn:Hc; [|done].
      destruct hasActiveFormats; [done|].
      destruct (start v =? 0) eqn:Hs; [|done].
      exfalso. apply Hnot. apply Z.eqb_eq in Hs.
      by rewrite bool_decide_eq_true.
    + intros -> -> Hs%bool_decide_eq_true ->. rewrite Hs. simpl.
      eexists. split; [reflexivity|].
      destruct (onRemove props && isEmpty v && true);
        split; try intros forward;
        elem_cases.
  - split.
    + intros Hnot.
      destruct (isCollapsed v) eqn:Hc; [|done].
      destruct hasActiveFormats; [done|].
      destruct (end_ v =? JsString.length (text v)) eqn:Hs; [|done].
      exfalso. apply Hnot. apply Z.eqb_eq in Hs.
      by rewrite bool_decide_eq_true.
    + intros -> -> Hs%bool_decide_eq_true%Z.eqb_eq ->. rewrite Hs. simpl.
      rewrite andb_false_r. simpl.
      eexists. split; [reflexivity|].
      split; try intros forward;
        elem_cases.
Qed.

(** **** C5 *)

(** C5.  On every live Enter event the default action is suppressed first.
    With [onReplace], the on-enter transforms are then checked, whatever the
    branch that follows: if one matches the text, [onReplace] is called with
    the one block it builds and the change is marked automatic, and after
    that the same event still runs its multiline or single-line branch (a
    split, a line separator or a newline). *)
Theorem enter_transform_before_branches props hasActiveFormats
    removeEditorOnlyFormats v event :
  defaultPrevented event = false →
  keyCode event = ENTER →
  let _value := removeEditorOnlyFormats v in
  let branch :=
    if isTruthy (multiline props) then enterMultiline props event _value
    else enterSingleLine props event _value in
  let transformation :=
    findTransform (List.filter isEnterTransform getBlockTransforms_from)
      (fun item => match item with
                   | EnterTransform regExp _ => regExp (text _value)
                   | _ => false
                   end) in
  (∃ rest,
     _onKeyDown props hasActiveFormats removeEditorOnlyFormats v event
     = PreventDefault :: rest)
  ∧ (onReplace props = true →
     ∀ t, transformation = Some t →
       ∃ regExp transform,
         t = EnterTransform regExp transform
         ∧ t ∈ getBlockTransforms_from
         ∧ regExp (text _value) = true
         ∧ _onKeyDown props hasActiveFormats removeEditorOnlyFormats v event
           = [PreventDefault;
              OnReplace [transform (text _value)] None None;
              MarkAutomaticChange] ++ branch)
  ∧ (onReplace props = true →
     transformation = None →
     _onKeyDown props hasActiveFormats removeEditorOnlyFormats v event
     = PreventDefault :: branch).
Proof.
  intros Hlive Hkey. simpl. unfold _onKeyDown. rewrite Hlive, Hkey. simpl.
  split; [eauto|]. unfold enterTransform. split.
  - intros -> t Ht. rewrite Ht.
    apply find_some in Ht as [Hin Hmatch].
    apply filter_In in Hin as [Hin Henter].
    destruct t as [regExp transform| |]; try discriminate.
    exists regExp, transform. split; [done|].
    split; [by apply list_elem_of_In|]. done.
  - intros -> Ht. by rewrite Ht.
Qed.

(** **** C7 *)

(** C7.  For a live Enter event outside multiline mode, read in order.
    [canSplitAtEnd] holds exactly when [onSplitAtEnd] exists, the selection
    is collapsed and the caret is at the end of the text.  After the default
    is suppressed and the transforms are checked: with Shift, or with neither
    the split capability nor [canSplitAtEnd], a newline is inserted unless
    line breaks are disabled; otherwise, without the split capability
    [onSplitAtEnd] is called; otherwise [splitValue] is called and hands the
    host its blocks. *)
Theorem enter_single_line props hasActiveFormats removeEditorOnlyFormats
    v event :
  defaultPrevented event = false →
  keyCode event = ENTER →
  isTruthy (multiline props) = false →
  let _value := removeEditorOnlyFormats v in
  let canSplit := onReplace props && bool_decide (is_Some (onSplit props)) in
  (canSplitAtEnd props _value = true ↔
   onSplitAtEnd props = true
   ∧ start _value = end_ _value
   ∧ end_ _value = JsString.length (text _value))
  ∧ ∃ branch,
      _onKeyDown props hasActiveFormats removeEditorOnlyFormats v event
      = [PreventDefault] ++ enterTransform props _value ++ branch
      ∧ (shiftKey event = true
         ∨ (canSplit = false ∧ canSplitAtEnd props _value = false) →
         branch = if disableLineBreaks props then []
                  else [OnChange (insert _value (inr NEWLINE))])
      ∧ (shiftKey event = false →
         canSplit = false →
         canSplitAtEnd props _value = true →
         branch = [OnSplitAtEnd])
      ∧ (shiftKey event = false →
         canSplit = true →
         branch = splitValue props _value []
         ∧ ∃ blocks indexToSelect initialPosition,
             branch = [OnReplace blocks indexToSelect initialPosition]).
Proof.
  intros Hlive Hkey Hsingle. simpl. split.
  - unfold canSplitAtEnd. rewrite !andb_true_iff, !Z.eqb_eq. tauto.
  - exists (enterSingleLine props event (removeEditorOnlyFormats v)).
    split.
    { unfold _onKeyDown. by rewrite Hlive, Hkey, Hsingle. }
    unfold enterSingleLine, insertNewline.
    split; [|split].
    + intros [->|[-> ->]]; simpl;
        by destruct (shiftKey event), (disableLineBreaks props).
    + by intros -> -> ->.
    + intros -> Hcan. rewrite Hcan. simpl. split; [done|].
      apply andb_true_iff in Hcan as [Hr Hs].
      apply bool_decide_eq_true in Hs as [onSplit_ Hs].
      rewrite (splitValue_eq _ _ _ onSplit_ Hr Hs). eauto.
Qed.

(** *** The prefix matcher *)

Lemma find_filter {A} (p q : A → bool) (l : list A) :
  List.find p (List.filter q l) = List.find (fun x => q x && p x) l.
Proof.
  induction l as [|x l IH]; [done|]. simpl.
  destruct (q x); simpl; [|done]. by rewrite IH.
Qed.

Lemma find_none_of {A} (f : A → bool) (l : list A) :
  (∀ x, x ∈ l → f x = false) → List.find f l = None.
Proof.
  induction l as [|x l IH]; [done|]. intros Hall. simpl.
  rewrite (Hall x) by apply list_elem_of_here.
  apply IH. intros y Hy. apply Hall. by apply list_elem_of_further.
Qed.

Lemma find_first {A} (f : A → bool) (earlier later : list A) (x : A) :
  (∀ y, y ∈ earlier → f y = false) →
  f x = true →
  List.find f (earlier ++ x :: later) = Some x.
Proof.
  induction earlier as [|y earlier IH]; intros Hall Hx; simpl.
  - by rewrite Hx.
  - rewrite (Hall y) by apply list_elem_of_here.
    apply IH; [|done]. intros z Hz. apply Hall. by apply list_elem_of_further.
Qed.

(** The character before the caret, for a caret inside the text. *)
Lemma slice_before_caret (s : jsstring) (caret : Z) (c : N) :
  JsString.slice s (caret - 1) caret = [c] →
  0 ≤ caret ≤ JsString.length s →
  0 < caret ∧ s !! Z.to_nat (caret - 1) = Some c.
Proof.
  unfold JsString.slice, JsString.relative. intros Hslice Hrange.
  destruct (caret <? 0) eqn:Hneg; [lia|].
  destruct (caret - 1 <? 0) eqn:Hzero.
  - assert (caret = 0) as -> by lia.
    replace (Z.to_nat _) with 0%nat in Hslice by lia. done.
  - split; [lia|].
    replace (Z.min (caret - 1) (JsString.length s)) with (caret - 1)
      in Hslice by lia.
    replace (Z.to_nat _) with 1%nat in Hslice by lia.
    assert (s !! Z.to_nat (caret - 1)
            = drop (Z.to_nat (caret - 1)) s !! 0%nat) as ->
      by (rewrite lookup_drop; f_equal; lia).
    by destruct (drop (Z.to_nat (caret - 1)) s); simplify_eq/=.
Qed.

(** **** C8 *)

(** C8.  [inputRule] does nothing without [onReplace], and it fires only
    when the character just before the caret is the space U+0020 (no other
    white space will do).  It then takes the first registered prefix
    transform whose prefix equals the trimmed text from offset 0 to the
    caret, builds the content from the slice of the value between the caret
    and the end of the text, calls [onReplace] with the one block the
    transform returns and marks the change automatic.  When no prefix
    transform matches it does nothing. *)
Theorem inputRule_prefix props v (valueToFormat : Value → Content) :
  let caret := start v in
  let trimmedTextBefore := JsString.trim (JsString.slice (text v) 0 caret) in
  (onReplace props = false → inputRule props v valueToFormat = [])
  ∧ (inputRule props v valueToFormat ≠ [] →
     JsString.slice (text v) (caret - 1) caret = [32%N]
     ∧ (0 ≤ caret ≤ JsString.length (text v) →
        0 < caret ∧ text v !! Z.to_nat (caret - 1) = Some 32%N))
  ∧ (onReplace props = true →
     JsString.slice (text v) (caret - 1) caret = [32%N] →
     ∀ earlier prefix transform later,
       getBlockTransforms_from
       = earlier ++ PrefixTransform prefix transform :: later →
       prefix = trimmedTextBefore →
       (∀ p t, PrefixTransform p t ∈ earlier → p ≠ trimmedTextBefore) →
       inputRule props v valueToFormat
       = [OnReplace
            [transform
               (valueToFormat (slice v caret (JsString.length (text v))))]
            None None;
          MarkAutomaticChange])
  ∧ ((∀ p t, PrefixTransform p t ∈ getBlockTransforms_from →
             p ≠ trimmedTextBefore) →
     inputRule props v valueToFormat = []).
Proof.
  simpl. split; [|split; [|split]].
  - intros Hr. unfold inputRule. by rewrite Hr.
  - intros Hfire.
    assert (Hspace : JsString.slice (text v) (start v - 1) (start v) = [32%N]).
    { unfold inputRule in Hfire. destruct (onReplace props); [|done].
      simpl in Hfire. unfold JsString.eqb in Hfire.
      case_bool_decide as Heq; [exact Heq|done]. }
    split; [done|]. by apply slice_before_caret.
  - intros Hr Hspace earlier prefix transform later Hreg Hprefix Hearlier.
    unfold inputRule, findTransform. rewrite Hr, Hspace. simpl.
    rewrite find_filter, Hreg.
    rewrite (find_first _ earlier later (PrefixTransform prefix transform)).
    + done.
    + intros [| p t |] Hin; try done. simpl.
      apply bool_decide_eq_false. intros Heq.
      by apply (Hearlier p t Hin).
    + simpl. apply bool_decide_eq_true. by rewrite Hprefix.
  - intros Hnone. unfold inputRule, findTransform.
    destruct (onReplace props); [|done]. simpl.
    destruct (negb _); [done|].
    rewrite find_filter, find_none_of; [done|].
    intros [| p t |] Hin; try done. simpl.
    apply bool_decide_eq_false. intros Heq. by apply (Hnone p t Hin).
Qed.

End Handlers.

(** ** The properties on the reference host *)

Section Examples.

Import Demo.

(** The caller's Value is a two-character text with the caret in the middle;
    an internal paste with bold active leaves it as it was. *)
Lemma value_written_only_by_addActiveFormats_witness :
  heapOf (caretAt (str "ab") 1) !! 1%positive = Some (caretAt (str "ab") 1)
  ∧ (∀ activeFormats, ∃ fs,
       addActiveFormats 1%positive activeFormats (heapOf (caretAt (str "ab") 1))
       = <[1%positive := setFormats fs (caretAt (str "ab") 1)]>
           (heapOf (caretAt (str "ab") 1)))
  ∧ ∃ sigs h',
      onPaste fullProps 1%positive (internal (str "xy"))
        (heapOf (caretAt (str "ab") 1)) = Some (sigs, h')
      ∧ h' !! 1%positive = Some (caretAt (str "ab") 1).
Proof.
  split; [reflexivity|].
  destruct (value_written_only_by_addActiveFormats fullProps 1%positive
              (internal (str "xy")) (heapOf (caretAt (str "ab") 1))
              (caretAt (str "ab") 1) eq_refl) as [Hadd Hpaste].
  split; [exact Hadd|].
  destruct (onPaste fullProps 1%positive (internal (str "xy"))
              (heapOf (caretAt (str "ab") 1))) as [[sigs h']|].
  - exists sigs, h'. split; [reflexivity|]. exact (proj1 Hpaste).
  - destruct Hpaste as [Hint _]. discriminate Hint.
Defined.

(** The claim of C2 fails for [addActiveFormats]: the value object it is
    given has other formats afterwards. *)
Lemma addActiveFormats_writes_in_place :
  addActiveFormats 1%positive [bold] (heapOf (plain (str "ab"))) !! 1%positive
  = Some {| formats := [Some [bold]; Some [bold]];
            text := str "ab"; start := 0; end_ := 0 |}
  ∧ addActiveFormats 1%positive [bold] (heapOf (plain (str "ab"))) !! 1%positive
    ≠ heapOf (plain (str "ab")) !! 1%positive.
Proof. split; [reflexivity|]. vm_compute. discriminate. Qed.

(** A paste at the caret of "ab": both units are kept around the pasted
    block. *)
Lemma splitValue_blocks_witness :
  onReplace fullProps = true
  ∧ onSplit fullProps = Some SplitBlock
  ∧ ∃ beforeUnit middle afterUnit indexToSelect initialPosition,
      splitValue fullProps (caretAt (str "ab") 1) [MiddleBlock]
      = [OnReplace (beforeUnit ++ middle ++ afterUnit)
           indexToSelect initialPosition]
      ∧ beforeUnit = [SplitBlock (str "a") true]
      ∧ middle = [MiddleBlock]
      ∧ afterUnit = [SplitBlock (str "b") false].
Proof.
  split; [reflexivity|]. split; [reflexivity|].
  destruct (splitValue_blocks fullProps (caretAt (str "ab") 1) [MiddleBlock]
              SplitBlock eq_refl eq_refl)
    as (beforeUnit & middle & afterUnit & i & p
        & Heq & Hb & Hb' & Hm & Ha & Ha').
  exists beforeUnit, middle, afterUnit, i, p.
  split; [exact Heq|]. split; [|split; [exact Hm|]].
  - apply Hb'. intros Hnil. apply Hb in Hnil as [Hempty _]. discriminate.
  - apply Ha'. intros Hnil. apply Ha in Hnil as [Hempty _]. discriminate.
Defined.

(** The claim of C1 fails both ways.  Enter on an empty Value, nothing
    pasted: the "before" unit is empty and is produced all the same.  A
    paste into an empty Value: the empty "before" unit is left out. *)
Lemma splitValue_keeps_empty_before_without_paste :
  isEmpty (split emptyValue).1 = true
  ∧ splitValue fullProps emptyValue []
    = [OnReplace [SplitBlock (str "") true; SplitBlock (str "") false]
         (Some 1) (Some 0)]
  ∧ splitValue fullProps emptyValue [PastedBlock BLOCKS (str "x")]
    = [OnReplace [PastedBlock BLOCKS (str "x")] (Some 0) (Some (-1))].
Proof. repeat split. Qed.

(** A shortcode pasted into an empty Value on a host with every capability:
    the parser runs in [BLOCKS] mode and the block replaces the Value. *)
Lemma pasteMode_spec_witness :
  pasteMode fullProps emptyValue (str "[gallery]") = BLOCKS
  ∧ onPaste fullProps 1%positive (general (str "[gallery]")) (heapOf emptyValue)
    = Some ([OnReplace [PastedBlock BLOCKS (str "[gallery]")]
               (Some 0) (Some (-1))], heapOf emptyValue).
Proof.
  destruct (pasteMode_spec fullProps 1%positive (general (str "[gallery]"))
              (heapOf emptyValue) emptyValue eq_refl eq_refl eq_refl eq_refl)
    as (Hmode & _ & Hpaste).
  split; [exact Hmode|].
  apply (Hpaste [PastedBlock BLOCKS (str "[gallery]")]); [reflexivity|].
  discriminate.
Defined.

(** The claim of C6 fails without [onReplace]: the Value is empty, the text
    is a shortcode, and the mode stays [INLINE]; the text is inserted
    inline. *)
Lemma pasteMode_shortcode_stays_inline :
  isEmpty emptyValue = true
  ∧ isShortcode (str "[gallery]") = true
  ∧ pasteMode noReplaceProps emptyValue (str "[gallery]") = INLINE
  ∧ fst <$> onPaste noReplaceProps 1%positive (general (str "[gallery]"))
              (heapOf emptyValue)
    = Some [OnChange (caretAt (str "[gallery]") 9)].
Proof. repeat split. Qed.

(** A URL pasted into an empty Value on a host without [onReplace], and a
    pasted file: both are dropped. *)
Lemma paste_dropped_without_split_capability_witness :
  onPaste noReplaceProps 1%positive (general (str "https://example.com"))
    (heapOf emptyValue) = Some ([], heapOf emptyValue)
  ∧ onPaste noReplaceProps 1%positive (filesOnly ["a.png"%string])
      (heapOf emptyValue)
    = Some ([ConsoleLog ["a.png"%string]], heapOf emptyValue).
Proof.
  split.
  - apply (proj2 (proj2 (paste_dropped_without_split_capability
             noReplaceProps 1%positive (general (str "https://example.com"))
             (heapOf emptyValue) emptyValue
             [PastedBlock BLOCKS (str "https://example.com")]
             eq_refl eq_refl eq_refl (or_introl eq_refl) eq_refl)));
      reflexivity.
  - apply (proj1 (proj2 (paste_dropped_without_split_capability
             noReplaceProps 1%positive (filesOnly ["a.png"%string])
             (heapOf emptyValue) emptyValue
             [PastedBlock BLOCKS (str "<img>")]
             eq_refl eq_refl eq_refl (or_introl eq_refl) eq_refl)));
      reflexivity.
Defined.

(** Backspace on an empty Value merges backward and removes; Delete merges
    forward and does not remove. *)
Lemma remove_only_on_Backspace_witness :
  _onKeyDown fullProps false id emptyValue (keyEvent BACKSPACE)
  = [OnMerge false; OnRemove false; PreventDefault]
  ∧ ∀ forward,
      OnRemove forward
        ∉ _onKeyDown fullProps false id emptyValue (keyEvent DELETE).
Proof.
  split.
  - apply (proj1 (proj2 (remove_only_on_Backspace fullProps false id
             emptyValue (keyEvent BACKSPACE)))); reflexivity.
  - apply (proj2 (proj2 (remove_only_on_Backspace fullProps false id
             emptyValue (keyEvent DELETE)))). reflexivity.
Defined.

(** Delete at the end of "ab" merges forward; Delete in the middle is left
    to the platform. *)
Lemma delete_backspace_merge_witness :
  (∃ rest,
     _onKeyDown fullProps false id (caretAt (str "ab") 2) (keyEvent DELETE)
     = OnMerge true :: rest
     ∧ (∀ forward, OnMerge forward ∉ rest)
     ∧ PreventDefault ∈ rest)
  ∧ _onKeyDown fullProps false id (caretAt (str "ab") 1) (keyEvent DELETE)
    = [].
Proof.
  split.
  - apply (proj2 (delete_backspace_merge fullProps false id
             (caretAt (str "ab") 2) (keyEvent DELETE)
             eq_refl (or_intror eq_refl))); reflexivity.
  - apply (proj1 (delete_backspace_merge fullProps false id
             (caretAt (str "ab") 1) (keyEvent DELETE)
             eq_refl (or_intror eq_refl))).
    intros (_ & _ & Hboundary). discriminate Hboundary.
Defined.

(** Enter after "---", which an on-enter transform of the reference host
    matches: the transform fires and the block is split as well. *)
Lemma enter_transform_before_branches_witness :
  _onKeyDown fullProps false id (caretAt (str "---") 3) (keyEvent ENTER)
  = [PreventDefault;
     OnReplace [TransformedBlock (str "---")] None None;
     MarkAutomaticChange;
     OnReplace [SplitBlock (str "---") true; SplitBlock (str "") false]
       (Some 1) (Some 0)].
Proof.
  destruct (enter_transform_before_branches fullProps false id
              (caretAt (str "---") 3) (keyEvent ENTER) eq_refl eq_refl)
    as (_ & Hmatch & _).
  destruct (Hmatch eq_refl _ eq_refl)
    as (regExp & transform & Ht & _ & _ & Hout).
  injection Ht as <- <-. exact Hout.
Defined.

(** The same match is followed by a newline when Shift is held, and by a
    line separator on a multiline host. *)
Example enter_transform_then_newline :
  _onKeyDown fullProps false id (caretAt (str "---") 3) shiftEnter
  = [PreventDefault;
     OnReplace [TransformedBlock (str "---")] None None;
     MarkAutomaticChange;
     OnChange (caretAt (str "---" ++ NEWLINE) 4)].
Proof. reflexivity. Qed.

Example enter_transform_then_line_separator :
  _onKeyDown multilineProps false id (caretAt (str "---") 3) (keyEvent ENTER)
  = [PreventDefault;
     OnReplace [TransformedBlock (str "---")] None None;
     MarkAutomaticChange;
     OnChange (caretAt (str "---" ++ LINE_SEPARATOR) 4)].
Proof. reflexivity. Qed.

(** Enter at the end of "ab" on a host with [onSplitAtEnd] only calls the
    hook; in the middle it inserts a newline. *)
Lemma enter_single_line_witness :
  canSplitAtEnd splitAtEndProps (caretAt (str "ab") 2) = true
  ∧ _onKeyDown splitAtEndProps false id (caretAt (str "ab") 2) (keyEvent ENTER)
    = [PreventDefault; OnSplitAtEnd]
  ∧ canSplitAtEnd splitAtEndProps (caretAt (str "ab") 1) = false
  ∧ _onKeyDown splitAtEndProps false id (caretAt (str "ab") 1) (keyEvent ENTER)
    = [PreventDefault; OnChange (caretAt (str "a" ++ NEWLINE ++ str "b") 2)].
Proof.
  destruct (enter_single_line splitAtEndProps false id
              (caretAt (str "ab") 2) (keyEvent ENTER)
              eq_refl eq_refl eq_refl)
    as (Hcan & branch & Hout & _ & Hend & _).
  destruct (enter_single_line splitAtEndProps false id
              (caretAt (str "ab") 1) (keyEvent ENTER)
              eq_refl eq_refl eq_refl)
    as (_ & branch' & Hout' & Hnewline & _ & _).
  split; [apply Hcan; repeat split|].
  split; [rewrite Hout, (Hend eq_refl eq_refl eq_refl); reflexivity|].
  split; [reflexivity|].
  rewrite Hout', (Hnewline (or_intror (conj eq_refl eq_refl))). reflexivity.
Defined.

(** "* " typed before "x": the first transform registered for "*" builds
    the block from "x".  A tab before the caret does not fire. *)
Lemma inputRule_prefix_witness :
  inputRule fullProps (caretAt (str "* x") 2) text
  = [OnReplace [TransformedBlock (str "x")] None None; MarkAutomaticChange]
  ∧ inputRule fullProps (caretAt (str "** ") 3) text = [].
Proof.
  split.
  - rewrite (proj1 (proj2 (proj2 (inputRule_prefix fullProps
             (caretAt (str "* x") 2) text))) eq_refl eq_refl
             [OtherTransform "block"] (str "*") TransformedBlock
             [EnterTransform (fun t => JsString.eqb t (str "---"))
                TransformedBlock;
              PrefixTransform (str "*") (fun _ => MiddleBlock)]);
      [reflexivity|reflexivity|reflexivity|].
    intros p t Hin. apply list_elem_of_singleton in Hin. discriminate Hin.
  - apply (proj2 (proj2 (proj2 (inputRule_prefix fullProps
             (caretAt (str "** ") 3) text)))).
    intros p t Hin Heq.
    repeat (apply elem_of_cons in Hin as [Hin|Hin];
            [try discriminate Hin; injection Hin as -> ->;
             vm_compute in Heq; discriminate Heq|]).
    by apply elem_of_nil in Hin.
Defined.

Example inputRule_tab_does_not_fire :
  inputRule fullProps (caretAt [42%N; 9%N; 120%N] 2) text = [].
Proof. reflexivity. Qed.

End Examples.

(** * Further properties *)

(** ** [addActiveFormats], in closed form *)

Section AddActiveFormatsMore.

Implicit Types (h : heap) (v : Value) (value : loc).
Implicit Types (activeFormats : list Format).

Lemma addActiveFormats_absent value activeFormats h :
  h !! value = None → addActiveFormats value activeFormats h = h.
Proof.
  intros Hnone. unfold addActiveFormats. rewrite Hnone. simpl.
  by case_bool_decide.
Qed.

Lemma addActiveFormats_nil value h : addActiveFormats value [] h = h.
Proof. done. Qed.

(** With at least one active format, every entry of [formats] is rebuilt:
    an array stays an array with the active formats in front, and a hole
    becomes the array of the active formats. *)
Lemma addActiveFormats_eq value activeFormats h v :
  h !! value = Some v →
  activeFormats ≠ [] →
  addActiveFormats value activeFormats h
  = <[value := setFormats
                 ((fun o => Some (activeFormats ++ default [] o))
                    <$> formats v) v]> h.
Proof.
  intros Hv Hne. unfold addActiveFormats.
  rewrite bool_decide_eq_true_2 by (by destruct activeFormats).
  rewrite Hv. simpl.
  destruct (addActiveFormats_while_spec value activeFormats
              (length (formats v)) h v Hv) as (fs & -> & Hlen & Hlt & _).
  { lia. }
  do 2 f_equal. apply list_eq. intros i. rewrite list_lookup_fmap.
  destruct (formats v !! i) as [o|] eqn:Hi.
  - rewrite Hlt by (by eapply lookup_lt_Some). unfold formatsAt.
    by rewrite Hi.
  - apply lookup_ge_None in Hi. apply lookup_ge_None. lia.
Qed.

(** X1.  Two calls of [addActiveFormats] on the same value amount to one
    call with the second list of formats in front of the first: the formats
    given last end up outermost. *)
Theorem addActiveFormats_compose value (inner outer : list Format) h :
  addActiveFormats value outer (addActiveFormats value inner h)
  = addActiveFormats value (outer ++ inner) h.
Proof.
  destruct (h !! value) as [v|] eqn:Hv.
  - destruct inner as [|f inner]; [by rewrite app_nil_r|].
    destruct outer as [|g outer]; [done|].
    rewrite (addActiveFormats_eq value (f :: inner) h v Hv) by done.
    rewrite (addActiveFormats_eq value (g :: outer) _ _
               (lookup_insert_eq _ _ _)) by done.
    rewrite (addActiveFormats_eq value ((g :: outer) ++ f :: inner) h v Hv)
      by done.
    rewrite insert_insert_eq. unfold setFormats. simpl.
    do 2 f_equal. rewrite <- list_fmap_compose. apply list_fmap_ext.
    intros i o _. simpl. by rewrite <- app_assoc.
  - rewrite (addActiveFormats_absent value inner h Hv).
    by rewrite !(addActiveFormats_absent value _ h Hv).
Qed.

(** X2.  With no active format the store is left as it is, holes
    included.  With at least one, the value keeps its text and selection and
    no entry of [formats] stays a hole: each becomes the array of the active
    formats followed by what the entry held. *)
Theorem addActiveFormats_fills_holes value activeFormats h v :
  h !! value = Some v →
  addActiveFormats value [] h = h
  ∧ (activeFormats ≠ [] →
     ∃ v',
       addActiveFormats value activeFormats h !! value = Some v'
       ∧ text v' = text v ∧ start v' = start v ∧ end_ v' = end_ v
       ∧ formats v'
         = (fun o => Some (activeFormats ++ default [] o)) <$> formats v
       ∧ None ∉ formats v').
Proof.
  intros Hv. split; [done|]. intros Hne.
  rewrite (addActiveFormats_eq value activeFormats h v Hv Hne).
  eexists. rewrite lookup_insert_eq. split; [reflexivity|]. simpl.
  do 4 (split; [done|]).
  intros Hin. apply list_elem_of_fmap in Hin as (o & Heq & _). done.
Qed.

End AddActiveFormatsMore.

(** ** [getMultilineTag], [getAllowedFormats], the selector, [Content] *)

(** The three results of [getMultilineTag]. *)
Lemma getMultilineTag_cases (multiline : Multiline) :
  getMultilineTag multiline = None
  ∨ getMultilineTag multiline = Some (str "p")
  ∨ getMultilineTag multiline = Some (str "li").
Proof.
  unfold getMultilineTag.
  destruct (decide (multiline = MultilineBool true)) as [->|H1]; [auto|].
  destruct (decide (multiline = MultilineString (str "p"))) as [->|H2];
    [auto|].
  destruct (decide (multiline = MultilineString (str "li"))) as [->|H3];
    [auto|].
  left. by rewrite !bool_decide_eq_true_2.
Qed.

(** X3.  [getMultilineTag] returns nothing, ['p'] or ['li']: ['li'] for the
    prop ['li'] only, ['p'] for [true] and ['p'].  A prop with a tag is
    truthy, but not the other way round: any other non-empty string puts the
    key handler in multiline mode and has no tag. *)
Theorem getMultilineTag_range (multiline : Multiline) :
  (getMultilineTag multiline = None
   ∨ getMultilineTag multiline = Some (str "p")
   ∨ getMultilineTag multiline = Some (str "li"))
  ∧ (getMultilineTag multiline = Some (str "li")
     ↔ multiline = MultilineString (str "li"))
  ∧ (getMultilineTag multiline = Some (str "p")
     ↔ multiline = MultilineBool true ∨ multiline = MultilineString (str "p"))
  ∧ (is_Some (getMultilineTag multiline) → isTruthy multiline = true)
  ∧ ∀ s, s ≠ [] → s ≠ str "p" → s ≠ str "li" →
      isTruthy (MultilineString s) = true
      ∧ getMultilineTag (MultilineString s) = None.
Proof.
  assert (Hcases :
    multiline = MultilineBool true ∨ multiline = MultilineString (str "p")
    ∨ multiline = MultilineString (str "li")
    ∨ (multiline ≠ MultilineBool true
       ∧ multiline ≠ MultilineString (str "p")
       ∧ multiline ≠ MultilineString (str "li"))).
  { destruct (decide (multiline = MultilineBool true)); [by left|].
    destruct (decide (multiline = MultilineString (str "p")));
      [by right; left|].
    destruct (decide (multiline = MultilineString (str "li")));
      [by right; right; left|]. by right; right; right. }
  assert (Hnone : multiline ≠ MultilineBool true →
                  multiline ≠ MultilineString (str "p") →
                  multiline ≠ MultilineString (str "li") →
                  getMultilineTag multiline = None).
  { intros H1 H2 H3. unfold getMultilineTag.
    by rewrite !bool_decide_eq_true_2. }
  split; [|split; [|split; [|split]]].
  - destruct Hcases as [->|[->|[->|(H1 & H2 & H3)]]]; auto.
  - destruct Hcases as [->|[->|[->|(H1 & H2 & H3)]]];
      try rewrite (Hnone H1 H2 H3); split; try done.
  - destruct Hcases as [->|[->|[->|(H1 & H2 & H3)]]];
      try rewrite (Hnone H1 H2 H3); split; try done; auto.
    + intros [?|?]; done.
    + intros [?|?]; done.
  - destruct Hcases as [->|[->|[->|(H1 & H2 & H3)]]]; try done.
    rewrite (Hnone H1 H2 H3). by intros [? ?].
  - intros s Hs Hp Hli. split.
    + simpl. destruct s; [done|]. reflexivity.
    + unfold getMultilineTag. rewrite !bool_decide_eq_true_2; [done|..];
        congruence.
Qed.

(** X4.  The format toolbar is shown ([hasFormats]) unless formats are
    disabled, the allowed formats are the empty array, or only the
    deprecated [formattingControls] is given and is empty.  [allowedFormats]
    wins over [formattingControls]; the deprecation warning is raised exactly
    when the result is built from [formattingControls], and then each
    control name comes back with ['core/'] in front. *)
Theorem getAllowedFormats_hasFormats
    (allowedFormats formattingControls : option (list jsstring))
    (disableFormats : bool) :
  let result :=
    getAllowedFormats allowedFormats formattingControls disableFormats in
  (hasFormats result.1 = false
   ↔ disableFormats = true
     ∨ allowedFormats = Some []
     ∨ (allowedFormats = None ∧ formattingControls = Some []))
  ∧ (result.2 ≠ []
     ↔ disableFormats = false ∧ allowedFormats = None
       ∧ is_Some formattingControls)
  ∧ (result.2 ≠ [] →
     ∃ names,
       result.1 = Some names
       ∧ Some (drop 5 <$> names) = formattingControls
       ∧ ∀ name, name ∈ names → take 5 name = str "core/")
  ∧ (disableFormats = false → is_Some allowedFormats →
     result.1 = allowedFormats).
Proof.
  simpl. unfold getAllowedFormats, hasFormats.
  destruct disableFormats; simpl.
  { split; [split; auto|]. split; [split; [done|by intros [? _]]|].
    split; done. }
  destruct allowedFormats as [allowed|], formattingControls as [controls|];
    simpl.
  - split; [|split; [|split; [done|done]]].
    + destruct allowed; split; try done; auto.
      * intros [?|[?|[? _]]]; done.
    + split; [done|]. by intros (_ & ? & _).
  - split; [|split; [|split; [done|done]]].
    + destruct allowed; split; try done; auto.
      * intros [?|[?|[? _]]]; done.
    + split; [done|]. by intros (_ & ? & _).
  - split; [|split; [|split; [|by intros _ [? ?]]]].
    + destruct controls; simpl; split; try done; auto.
      * intros [?|[?|[_ ?]]]; done.
    + split; [by eauto|done].
    + intros _. eexists. split; [reflexivity|]. split.
      * f_equal. rewrite <- list_fmap_compose.
        rewrite <- (list_fmap_id controls) at 2. by apply list_fmap_ext.
      * intros name (c & -> & _)%list_elem_of_fmap. done.
  - split; [|split; [|split; [done|by intros _ [? ?]]]].
    + split; [done|]. intros [?|[?|[_ ?]]]; done.
    + split; [done|]. by intros (_ & _ & [? ?]).
Qed.

Section SelectorProperties.

Context {ClientId AttributeKey : Type}.
Context `{EqDecision ClientId, EqDecision AttributeKey}.

Implicit Types (selectionStart selectionEnd : SelectionPoint ClientId AttributeKey).

(** X5.  The selector hands out offsets only to a selected RichText, and
    then both: the offset of the selection start, and the offset of the
    selection end whatever block or attribute that end lies in.  With
    [isSelected] passed as [false] the RichText is never selected; passed as
    [true] it is selected exactly when the selection starts in its block,
    whatever the attribute; not passed, the attribute must match too.  So
    passing [true] never unselects a RichText the default rule selects. *)
Theorem selector_selection (originalIsSelected : option bool)
    selectionStart selectionEnd (clientId : ClientId)
    (identifier : AttributeKey) :
  let result :=
    selector originalIsSelected selectionStart selectionEnd clientId
      identifier in
  (result.2 ≠ Some true → result.1 = (None, None))
  ∧ (result.2 = Some true →
     result.1 = (offset selectionStart, offset selectionEnd))
  ∧ (originalIsSelected = Some false → result.2 = None)
  ∧ (originalIsSelected = Some true →
     (result.2 = Some true ↔ point_clientId selectionStart = clientId))
  ∧ (originalIsSelected = None →
     (result.2 = Some true
      ↔ point_clientId selectionStart = clientId
        ∧ attributeKey selectionStart = identifier))
  ∧ (selector_isSelected None selectionStart clientId identifier = Some true →
     selector_isSelected (Some true) selectionStart clientId identifier
     = Some true).
Proof.
  simpl. unfold selector, selector_isSelected. simpl.
  split; [|split; [|split; [|split; [|split]]]].
  - intros Hne. by rewrite bool_decide_eq_false_2.
  - intros Heq. by rewrite bool_decide_eq_true_2.
  - by intros ->.
  - intros ->. split.
    + intros [= Heq]. by apply bool_decide_eq_true in Heq.
    + intros Heq. by rewrite bool_decide_eq_true_2.
  - intros ->. split.
    + intros [= Heq]. apply andb_true_iff in Heq as [H1 H2].
      by apply bool_decide_eq_true in H1, H2.
    + intros [H1 H2]. by rewrite !bool_decide_eq_true_2.
  - intros [= Heq]. apply andb_true_iff in Heq as [H1 _]. by rewrite H1.
Qed.

End SelectorProperties.

Section ContentProperties.

Context {Child PropValue : Type}.
Variable childrenSource_toHTML : list Child → jsstring.

(** The string a rendered [Content] wraps, and the props it passes on. *)
Lemma Content_cases (value : ContentValue Child) (Tag : option jsstring)
    (multiline : Multiline) (props : gmap string PropValue) :
  ∃ html,
    (RichText_Content childrenSource_toHTML value Tag multiline props
     = RawHTML html
     ∨ ∃ tag, Tag = Some tag ∧ tag ≠ []
         ∧ RichText_Content childrenSource_toHTML value Tag multiline props
           = TagElement tag (delete "format" props) (RawHTML html))
    ∧ html
      = (let given := match value with
                      | ChildrenValue children => childrenSource_toHTML children
                      | StringValue s => s
                      end in
         match getMultilineTag multiline with
         | Some tag =>
             if JsString.length given =? 0
             then str "<" ++ tag ++ str "></" ++ tag ++ str ">"
             else given
         | None => given
         end).
Proof.
  eexists. split; [|reflexivity]. unfold RichText_Content.
  destruct Tag as [tag|]; [|by left].
  destruct tag as [|c tag]; [by left|]. right. by exists (c :: tag).
Qed.

(** X6.  [Content] never passes the [format] prop on to the element it
    renders, and passes every other prop unchanged.  A non-empty value is
    rendered as it is.  An empty value is rendered as the empty string
    without a multiline tag, and as one empty ['p'] or ['li'] element with
    one, so that multiline content is never empty; for a string value this
    is the case [RichText.isEmpty] reports. *)
Theorem Content_renders (value : ContentValue Child) (Tag : option jsstring)
    (multiline : Multiline) (props : gmap string PropValue) :
  let given :=
    match value with
    | ChildrenValue children => childrenSource_toHTML children
    | StringValue s => s
    end in
  ∃ html,
    (RichText_Content childrenSource_toHTML value Tag multiline props
     = RawHTML html
     ∨ ∃ tag passed,
         RichText_Content childrenSource_toHTML value Tag multiline props
         = TagElement tag passed (RawHTML html)
         ∧ Tag = Some tag
         ∧ passed !! "format" = None
         ∧ ∀ key, key ≠ "format" → passed !! key = props !! key)
    ∧ (given ≠ [] → html = given)
    ∧ (given = [] → getMultilineTag multiline = None → html = [])
    ∧ (given = [] → is_Some (getMultilineTag multiline) →
       html = str "<p></p>" ∨ html = str "<li></li>")
    ∧ (is_Some (getMultilineTag multiline) → html ≠ [])
    ∧ (∀ s, value = StringValue s →
       (RichText_isEmpty (Some value) = true ↔ given = [])).
Proof.
  simpl.
  destruct (Content_cases value Tag multiline props) as (html & Hshape & Hhtml).
  exists html. split.
  { destruct Hshape as [?|(tag & -> & _ & ->)]; [by left|].
    right. exists tag, (delete "format" props). split; [done|].
    split; [done|]. split; [apply lookup_delete_eq|].
    intros key Hkey. by apply lookup_delete_ne. }
  assert (Hlen : ∀ s : jsstring, (JsString.length s =? 0) = true ↔ s = []).
  { intros s. unfold JsString.length. rewrite Z.eqb_eq.
    destruct s; simpl; split; try done; lia. }
  simpl in Hhtml.
  set (given := match value with
                | ChildrenValue children => childrenSource_toHTML children
                | StringValue s => s
                end) in *.
  pose proof (getMultilineTag_cases multiline) as Hrange.
  split; [|split; [|split; [|split]]].
  - intros Hne. rewrite Hhtml.
    destruct (getMultilineTag multiline); [|done].
    destruct (JsString.length given =? 0) eqn:Hz; [|done].
    by apply Hlen in Hz.
  - intros Hnil Hnone. rewrite Hhtml, Hnone. done.
  - intros Hnil Hsome. rewrite Hhtml, Hnil.
    destruct Hrange as [Hr|[Hr|Hr]]; rewrite Hr in *; simpl; auto.
    by destruct Hsome.
  - intros Hsome. rewrite Hhtml.
    destruct Hrange as [Hr|[Hr|Hr]]; rewrite Hr in *; simpl.
    + by destruct Hsome.
    + destruct (JsString.length given =? 0) eqn:Hz; [done|].
      intros Hnil. rewrite Hnil in Hz. done.
    + destruct (JsString.length given =? 0) eqn:Hz; [done|].
      intros Hnil. rewrite Hnil in Hz. done.
  - intros s ->. simpl. apply Hlen.
Qed.

End ContentProperties.

(** ** More on the handlers *)

Section HandlersMore.

Context {Block Content File : Type} `{!Imports Block Content File}.

Implicit Types (props : Props Block) (h : heap) (v record : Value).
Implicit Types (value : loc) (e : PasteEvent File).
Implicit Types (event : KeyboardEvent) (hasActiveFormats : bool).
Implicit Types (removeEditorOnlyFormats : Value → Value).

(** Membership in an explicit list of signals, by cases. *)
Ltac elem_cases :=
  simpl; rewrite ?elem_of_app, ?elem_of_cons, ?elem_of_nil;
  intuition (try discriminate; try congruence).

(** *** [splitValue]: what is selected, and which block is the original *)

Lemma lookup_last_of_middle {A} (pre l post : list A) :
  l ≠ [] →
  (pre ++ l ++ post) !! (length pre + length l - 1)%nat = last l.
Proof.
  intros Hne. assert (0 < length l)%nat by (destruct l; simpl; [done|lia]).
  rewrite lookup_app_r by lia. rewrite lookup_app_l by lia.
  rewrite last_lookup. f_equal. lia.
Qed.

(** X7.  On a host with [onReplace] and [onSplit], the index [splitValue]
    asks the host to select is always an index of the block list.  After a
    paste it is the last pasted block, with the caret at its end (-1), and
    the list holds the pasted blocks and at most two more.  Otherwise it is
    index 1 with the caret at the start (0): the list has two or three
    blocks and the one selected is the block of the middle hook, or the
    "after" unit when there is no middle hook. *)
Theorem splitValue_selection props record pastedBlocks onSplit_ :
  onReplace props = true →
  onSplit props = Some onSplit_ →
  let after := (split record).2 in
  let isAfterOriginal := isEmpty (split record).1 && negb (isEmpty after) in
  ∃ blocks indexToSelect initialPosition,
    splitValue props record pastedBlocks
    = [OnReplace blocks (Some indexToSelect) (Some initialPosition)]
    ∧ 0 ≤ indexToSelect < Z.of_nat (length blocks)
    ∧ (pastedBlocks ≠ [] →
       initialPosition = -1
       ∧ blocks !! Z.to_nat indexToSelect = last pastedBlocks
       ∧ (length pastedBlocks ≤ length blocks ≤ length pastedBlocks + 2)%nat)
    ∧ (pastedBlocks = [] →
       indexToSelect = 1 ∧ initialPosition = 0
       ∧ (2 ≤ length blocks ≤ 3)%nat
       ∧ blocks !! 1%nat
         = Some (match onSplitMiddle props with
                 | Some onSplitMiddle_ => onSplitMiddle_ tt
                 | None =>
                     onSplit_
                       (toHTMLString after (getMultilineTag (multiline props)))
                       isAfterOriginal
                 end)).
Proof.
  intros Hr Hs. simpl.
  rewrite (splitValue_eq props record pastedBlocks onSplit_ Hr Hs).
  do 3 eexists. split; [reflexivity|].
  destruct (split record) as [before after]. simpl.
  destruct pastedBlocks as [|b pastedBlocks].
  - simpl. destruct (isEmpty before), (isEmpty after),
      (onSplitMiddle props) as [m|]; simpl;
      (split; [lia|]); (split; [done|]); intros _;
      repeat split; try done; lia.
  - rewrite bool_decide_eq_true_2 by done. rewrite andb_true_r.
    set (beforeUnit := if isEmpty before then [] else [_]).
    set (afterUnit := if isEmpty after then [] else [_]).
    assert (length beforeUnit ≤ 1)%nat
      by (unfold beforeUnit; destruct (isEmpty before); simpl; lia).
    assert (length afterUnit ≤ 1)%nat
      by (unfold afterUnit; destruct (isEmpty after); simpl; lia).
    rewrite !length_app. simpl. split; [lia|]. split; [|done].
    intros _. split; [done|]. split; [|lia].
    rewrite <- (lookup_last_of_middle beforeUnit (b :: pastedBlocks) afterUnit)
      by done.
    f_equal. simpl. lia.
Qed.


(** *** [_onKeyDown]: what a key can and cannot do *)

(** The signals of the Enter key after [preventDefault]. *)
Lemma enter_rest_cases props event _value :
  ∃ transformPart branch,
    enterTransform props _value
      ++ (if isTruthy (multiline props) then enterMultiline props event _value
          else enterSingleLine props event _value)
    = transformPart ++ branch
    ∧ (transformPart = []
       ∨ ∃ block,
           transformPart = [OnReplace [block] None None; MarkAutomaticChange])
    ∧ ((branch = [] ∧ disableLineBreaks props = true)
       ∨ (∃ v', branch = [OnChange v'])
       ∨ branch = [OnSplitAtEnd]
       ∨ ∃ blocks i p, branch = [OnReplace blocks i p]).
Proof.
  eexists _, _. split; [reflexivity|].
  split; [apply enterTransform_cases|].
  unfold enterMultiline, enterSingleLine, insertNewline.
  destruct (onReplace props) eqn:Hr; simpl;
    [destruct (onSplit props) as [onSplit_|] eqn:Hs; simpl|];
    try rewrite (splitValue_eq props _value [] _ Hr Hs);
    destruct (isTruthy (multiline props)), (shiftKey event),
      (disableLineBreaks props); simpl;
    try destruct (isEmptyLine _value); simpl;
    try destruct (canSplitAtEnd props _value); simpl;
    eauto 10.
Qed.

(** X9.  [_onKeyDown] intercepts an event exactly when it acts on it: if it
    makes any call at all, [event.preventDefault()] is among them, once.  It
    does nothing for an event that an earlier handler has consumed and for
    any key but Enter, Delete and Backspace, and it always acts on a live
    Enter. *)
Theorem onKeyDown_intercepts props hasActiveFormats removeEditorOnlyFormats
    v event :
  let signals :=
    _onKeyDown props hasActiveFormats removeEditorOnlyFormats v event in
  (signals = []
   ∨ ∃ earlier later,
       signals = earlier ++ PreventDefault :: later
       ∧ (PreventDefault ∉ earlier) ∧ (PreventDefault ∉ later))
  ∧ (defaultPrevented event = true → signals = [])
  ∧ (keyCode event ≠ ENTER → keyCode event ≠ DELETE →
     keyCode event ≠ BACKSPACE → signals = [])
  ∧ (defaultPrevented event = false → keyCode event = ENTER → signals ≠ []).
Proof.
  simpl. unfold _onKeyDown. split; [|split; [|split]].
  - destruct (defaultPrevented event); [by left|].
    destruct (keyCode event =? ENTER).
    + right. exists [], (enterTransform props (removeEditorOnlyFormats v)
        ++ (if isTruthy (multiline props)
            then enterMultiline props event (removeEditorOnlyFormats v)
            else enterSingleLine props event (removeEditorOnlyFormats v))).
      split; [reflexivity|]. split; [apply not_elem_of_nil|].
      destruct (enter_rest_cases props event (removeEditorOnlyFormats v))
        as (t & b & -> & Ht & Hb).
      destruct Ht as [->|[block ->]];
        destruct Hb as [[-> _]|[[v' ->]|[->|(bs & i & p & ->)]]];
        elem_cases.
    + destruct (_ || _); [|by left]. unfold deleteOrBackspace.
      destruct (negb (isCollapsed v) || _ || _ || _); [by left|].
      right. eexists _, []. rewrite app_assoc. split; [reflexivity|].
      split; [|apply not_elem_of_nil].
      destruct (onMerge props),
        (onRemove props && isEmpty v && (keyCode event =? BACKSPACE));
        elem_cases.
  - by intros ->.
  - intros H1%Z.eqb_neq H2%Z.eqb_neq H3%Z.eqb_neq.
    rewrite H1, H2, H3. by destruct (defaultPrevented event).
  - intros -> ->. done.
Qed.

(** X10.  What each key can do.  A live Enter suppresses the default, then
    makes at most one transform replacement (with its automatic-change
    mark), then at most one of: a change of the Value, a call of
    [onSplitAtEnd], a block split; it makes none of the three only when line
    breaks are disabled.  Delete and Backspace never change the Value and
    never replace or split blocks: they only merge, remove and suppress the
    default. *)
Theorem onKeyDown_shape props hasActiveFormats removeEditorOnlyFormats
    v event :
  let signals :=
    _onKeyDown props hasActiveFormats removeEditorOnlyFormats v event in
  (defaultPrevented event = false →
   keyCode event = ENTER →
   ∃ transformPart branch,
     signals = PreventDefault :: transformPart ++ branch
     ∧ (transformPart = []
        ∨ ∃ block,
            transformPart
            = [OnReplace [block] None None; MarkAutomaticChange])
     ∧ ((branch = [] ∧ disableLineBreaks props = true)
        ∨ (∃ v', branch = [OnChange v'])
        ∨ branch = [OnSplitAtEnd]
        ∨ ∃ blocks i p, branch = [OnReplace blocks i p]))
  ∧ (keyCode event ≠ ENTER →
     ∀ s, s ∈ signals →
       s = PreventDefault ∨ ∃ forward, s = OnMerge forward ∨ s = OnRemove forward).
Proof.
  simpl. unfold _onKeyDown. split.
  - intros -> ->. simpl.
    destruct (enter_rest_cases props event (removeEditorOnlyFormats v))
      as (t & b & Heq & Ht & Hb).
    exists t, b. by rewrite Heq.
  - intros Hkey%Z.eqb_neq s. rewrite Hkey.
    destruct (defaultPrevented event); [by rewrite elem_of_nil|].
    destruct (_ || _); [|by rewrite elem_of_nil].
    unfold deleteOrBackspace.
    destruct (negb (isCollapsed v) || _ || _ || _); [by rewrite elem_of_nil|].
    destruct (onMerge props),
      (onRemove props && isEmpty v && (keyCode event =? BACKSPACE));
      rewrite ?elem_of_app, ?elem_of_cons, ?elem_of_nil;
      intros Hin; repeat (destruct Hin as [Hin|Hin]; try done); subst s; eauto.
Qed.

(** X11.  A live Enter in multiline mode, read in order: with Shift a
    newline is inserted unless line breaks are disabled; otherwise, with the
    split capability and the caret on an empty line, the block is split;
    otherwise a line separator is inserted, line breaks disabled or not.
    [onSplitAtEnd] is never called in multiline mode. *)
Theorem enter_multiline props hasActiveFormats removeEditorOnlyFormats
    v event :
  defaultPrevented event = false →
  keyCode event = ENTER →
  isTruthy (multiline props) = true →
  let _value := removeEditorOnlyFormats v in
  let canSplit := onReplace props && bool_decide (is_Some (onSplit props)) in
  ∃ branch,
    _onKeyDown props hasActiveFormats removeEditorOnlyFormats v event
    = [PreventDefault] ++ enterTransform props _value ++ branch
    ∧ (shiftKey event = true →
       branch = if disableLineBreaks props then []
                else [OnChange (insert _value (inr NEWLINE))])
    ∧ (shiftKey event = false →
       canSplit = true →
       isEmptyLine _value = true →
       branch = splitValue props _value []
       ∧ ∃ blocks indexToSelect initialPosition,
           branch = [OnReplace blocks indexToSelect initialPosition])
    ∧ (shiftKey event = false →
       canSplit && isEmptyLine _value = false →
       branch = [OnChange (insertLineSeparator _value)])
    ∧ OnSplitAtEnd
        ∉ _onKeyDown props hasActiveFormats removeEditorOnlyFormats v event.
Proof.
  intros Hlive Hkey Hmulti. simpl.
  exists (enterMultiline props event (removeEditorOnlyFormats v)).
  assert (Hout :
    _onKeyDown props hasActiveFormats removeEditorOnlyFormats v event
    = [PreventDefault] ++ enterTransform props (removeEditorOnlyFormats v)
        ++ enterMultiline props event (removeEditorOnlyFormats v)).
  { unfold _onKeyDown. by rewrite Hlive, Hkey, Hmulti. }
  split; [exact Hout|]. unfold enterMultiline, insertNewline in *.
  split; [|split; [|split]].
  - intros ->. by destruct (disableLineBreaks props).
  - intros -> Hcan ->. rewrite Hcan. simpl. split; [done|].
    apply andb_true_iff in Hcan as [Hr Hs].
    apply bool_decide_eq_true in Hs as [onSplit_ Hs].
    rewrite (splitValue_eq _ _ _ onSplit_ Hr Hs). eauto.
  - intros -> Hno. by rewrite Hno.
  - rewrite Hout.
    destruct (enterTransform_cases props (removeEditorOnlyFormats v))
      as [->|[block ->]];
      destruct (splitValue_cases props (removeEditorOnlyFormats v) [])
        as [->|(bs & i & p & ->)];
      destruct (shiftKey event), (disableLineBreaks props),
        (onReplace props && bool_decide (is_Some (onSplit props))
         && isEmptyLine (removeEditorOnlyFormats v));
      elem_cases.
Qed.

(** X12.  With [disableLineBreaks], Enter never changes the Value outside
    multiline mode, and in multiline mode never when Shift is held: no
    [onChange] is called. *)
Theorem disableLineBreaks_no_change props hasActiveFormats
    removeEditorOnlyFormats v event :
  disableLineBreaks props = true →
  shiftKey event = true ∨ isTruthy (multiline props) = false →
  ∀ v',
    OnChange v'
      ∉ _onKeyDown props hasActiveFormats removeEditorOnlyFormats v event.
Proof.
  intros Hdis Hcase v'. unfold _onKeyDown.
  destruct (defaultPrevented event); [apply not_elem_of_nil|].
  destruct (keyCode event =? ENTER).
  - unfold enterMultiline, enterSingleLine, insertNewline. rewrite Hdis.
    destruct (enterTransform_cases props (removeEditorOnlyFormats v))
      as [->|[block ->]];
      destruct (splitValue_cases props (removeEditorOnlyFormats v) [])
        as [->|(bs & i & p & ->)];
      destruct Hcase as [->| ->]; simpl;
      repeat match goal with
             | |- context [if ?c then _ else _] => destruct c
             end;
      elem_cases.
  - destruct (_ || _); [|apply not_elem_of_nil].
    unfold deleteOrBackspace.
    destruct (negb (isCollapsed v) || _ || _ || _); [apply not_elem_of_nil|].
    destruct (onMerge props),
      (onRemove props && isEmpty v && (keyCode event =? BACKSPACE));
      elem_cases.
Qed.

End HandlersMore.

(** ** More on paste *)

Section PasteMore.

Context {Block Content File : Type} `{!Imports Block Content File}.

Implicit Types (props : Props Block) (h : heap) (v : Value).
Implicit Types (value : loc) (e : PasteEvent File).

(** A new object with the active formats added, next to the caller's. *)
Lemma create_then_addActiveFormats (created : Value) activeFormats
    h value v :
  h !! value = Some v →
  ∃ pasted,
    addActiveFormats (fresh (dom h)) activeFormats
      (<[fresh (dom h) := created]> h)
    = <[fresh (dom h) := pasted]> h
    ∧ <[fresh (dom h) := pasted]> h !! value = Some v
    ∧ text pasted = text created
    ∧ start pasted = start created
    ∧ end_ pasted = end_ created
    ∧ length (formats pasted) = length (formats created)
    ∧ ∀ i, (i < length (formats created))%nat →
        formatsAt (formats pasted) i
        = activeFormats ++ formatsAt (formats created) i.
Proof.
  intros Hv.
  destruct (addActiveFormats_lookup (fresh (dom h)) activeFormats
              (<[fresh (dom h) := created]> h) created)
    as (fs & Heq & Hlen & Hat).
  { by rewrite lookup_insert_eq. }
  exists (setFormats fs created). rewrite Heq, insert_insert_eq.
  split; [done|]. split; [by apply lookup_insert_fresh|]. done.
Qed.

(** X13.  An internal paste does not go through [pasteHandler] and does not
    look at the capabilities of the host or at [pastePlainText]: it calls
    [onChange] once, with the pasted HTML parsed by [create] and inserted
    into the Value.  The inserted fragment has the text and selection
    [create] gave it, and at every position the active formats in front of
    the formats [create] gave it.  The fragment is the one new object of the
    store. *)
Theorem onPaste_internal props value e h v :
  h !! value = Some v →
  isInternal e = true →
  let multilineTag := getMultilineTag (multiline props) in
  let created :=
    create {| create_html := Some (html e);
              create_text := None;
              create_multilineTag := multilineTag;
              create_multilineWrapperTags :=
                if bool_decide (multilineTag = Some (str "li"))
                then Some [str "ul"; str "ol"] else None;
              create_preserveWhiteSpace := preserveWhiteSpace props |} in
  ∃ pasted,
    onPaste props value e h
    = Some ([OnChange (insert v (inl pasted))],
            <[fresh (dom h) := pasted]> h)
    ∧ text pasted = text created
    ∧ start pasted = start created
    ∧ end_ pasted = end_ created
    ∧ length (formats pasted) = length (formats created)
    ∧ ∀ i, (i < length (formats created))%nat →
        formatsAt (formats pasted) i
        = activeFormats e ++ formatsAt (formats created) i.
Proof.
  intros Hv Hint. simpl. unfold onPaste, alloc. rewrite Hint.
  match goal with |- context [addActiveFormats _ ?a (<[_ := ?c]> _)] =>
    destruct (create_then_addActiveFormats c a h value v Hv)
      as (pasted & -> & Hvalue & Hrest) end.
  exists pasted. rewrite Hvalue. simpl. rewrite lookup_insert_eq. simpl.
  done.
Qed.

(** X14.  On a host with [pastePlainText], a paste that is not internal
    inserts the plain text and nothing else: the HTML, the files, the
    capabilities of the host and the active formats play no part, so the
    inserted text does not take the active formats. *)
Theorem onPaste_plain_text props value e h v :
  h !! value = Some v →
  isInternal e = false →
  pastePlainText props = true →
  let created :=
    create {| create_html := None;
              create_text := Some (plainText e);
              create_multilineTag := None;
              create_multilineWrapperTags := None;
              create_preserveWhiteSpace := false |} in
  onPaste props value e h
  = Some ([OnChange (insert v (inl created))],
          <[fresh (dom h) := created]> h).
Proof.
  intros Hv Hint Hplain. simpl. unfold onPaste, alloc.
  rewrite Hint, Hplain.
  rewrite (lookup_insert_fresh h value v _ Hv). simpl.
  by rewrite lookup_insert_eq.
Qed.

(** X15.  When [pasteHandler] answers a general paste with a string, the
    string is parsed by [create] without a multiline tag, the active formats
    are put in front at every position, and the result is inserted with one
    call of [onChange].  Runs of newlines are turned into line separators
    exactly when the [multiline] prop has a tag: not for a prop that is
    truthy but is neither [true], ['p'] nor ['li']. *)
Theorem onPaste_inline props value e h v (content : jsstring) :
  h !! value = Some v →
  isInternal e = false →
  pastePlainText props = false →
  isFilePaste e = false →
  pasteHandler (generalOptions props v e) = inl content →
  let created :=
    create {| create_html := Some content;
              create_text := None;
              create_multilineTag := None;
              create_multilineWrapperTags := None;
              create_preserveWhiteSpace := false |} in
  ∃ valueToInsert,
    onPaste props value e h
    = Some ([OnChange
               (insert v
                  (inl (if bool_decide (is_Some (getMultilineTag
                                                   (multiline props)))
                        then replace valueToInsert NEWLINES LINE_SEPARATOR
                        else valueToInsert)))],
            <[fresh (dom h) := valueToInsert]> h)
    ∧ text valueToInsert = text created
    ∧ length (formats valueToInsert) = length (formats created)
    ∧ ∀ i, (i < length (formats created))%nat →
        formatsAt (formats valueToInsert) i
        = activeFormats e ++ formatsAt (formats created) i.
Proof.
  intros Hv Hint Hplain Hfile Hcontent. simpl. unfold onPaste, alloc.
  rewrite Hint, Hplain. fold (isFilePaste e). rewrite Hfile, Hv. simpl.
  fold (generalOptions props v e). rewrite Hcontent.
  match goal with |- context [addActiveFormats _ ?a (<[_ := ?c]> _)] =>
    destruct (create_then_addActiveFormats c a h value v Hv)
      as (pasted & -> & Hvalue & Ht & _ & _ & Hlen & Hat) end.
  exists pasted. rewrite lookup_insert_eq. simpl. rewrite Hvalue. simpl.
  done.
Qed.

(** X16.  An empty block list from the parser.  A general paste checks for
    it and does nothing.  A file paste does not: on an empty Value, with
    [onReplace], it calls [onReplace] with the empty list. *)
Theorem onPaste_empty_block_list props value e h v :
  h !! value = Some v →
  isInternal e = false →
  pastePlainText props = false →
  (isFilePaste e = false →
   pasteHandler (generalOptions props v e) = inr [] →
   onPaste props value e h = Some ([], h))
  ∧ (isFilePaste e = true →
     pasteHandler (fileOptions props e) = inr [] →
     onReplace props = true →
     isEmpty v = true →
     onPaste props value e h
     = Some ([ConsoleLog (files e); OnReplace [] None None], h)).
Proof.
  intros Hv Hint Hplain. unfold onPaste. rewrite Hint, Hplain.
  fold (isFilePaste e). fold (fileOptions props e).
  split.
  - intros Hfile Hcontent. rewrite Hfile, Hv. simpl.
    fold (generalOptions props v e). by rewrite Hcontent.
  - intros Hfile Hcontent Hr Hempty. rewrite Hfile, Hcontent, Hv. simpl.
    by rewrite Hr, Hempty.
Qed.

(** X17.  Whatever is pasted, [onPaste] calls the host at most once, with
    [onChange] or with [onReplace], after logging the files of a file paste;
    it never touches the event and never merges or removes.  It adds at most
    one object to the store. *)
Theorem onPaste_one_call props value e h v sigs h' :
  h !! value = Some v →
  onPaste props value e h = Some (sigs, h') →
  ∃ log call,
    sigs = log ++ call
    ∧ (log = [] ∨ (log = [ConsoleLog (files e)] ∧ isFilePaste e = true))
    ∧ (call = []
       ∨ (∃ v', call = [OnChange v'])
       ∨ ∃ blocks i p, call = [OnReplace blocks i p])
    ∧ (h' = h
       ∨ ∃ created,
           h !! fresh (dom h) = None ∧ h' = <[fresh (dom h) := created]> h).
Proof.
  intros Hv. unfold onPaste, alloc.
  assert (Hfresh : h !! fresh (dom h) = None)
    by apply not_elem_of_dom, is_fresh.
  destruct (isInternal e).
  { match goal with |- context [addActiveFormats _ ?a (<[_ := ?c]> _)] =>
      destruct (create_then_addActiveFormats c a h value v Hv)
        as (pasted & -> & Hvalue & _) end.
    rewrite Hvalue. simpl. rewrite lookup_insert_eq. simpl.
    intros [= <- <-]. exists [], [OnChange (insert v (inl pasted))].
    split; [done|]. split; [by left|]. split; [eauto|]. eauto. }
  destruct (pastePlainText props).
  { rewrite (lookup_insert_fresh h value v _ Hv). simpl.
    rewrite lookup_insert_eq. simpl.
    intros [= <- <-]. eexists [], [_].
    split; [done|]. split; [by left|]. split; [eauto|]. eauto. }
  fold (isFilePaste e). fold (fileOptions props e).
  destruct (isFilePaste e) eqn:Hfile.
  { destruct (pasteHandler (fileOptions props e)) as [s|content]; [done|].
    rewrite Hv. simpl. intros [= <- <-].
    exists [ConsoleLog (files e)],
      (if onReplace props && isEmpty v then [OnReplace content None None]
       else splitValue props v content).
    split; [done|]. split; [by right|]. split; [|by left].
    destruct (onReplace props && isEmpty v); [eauto 10|].
    destruct (splitValue_cases props v content) as [->|(bs & i & p & ->)];
      eauto 10. }
  rewrite Hv. simpl. fold (generalOptions props v e).
  destruct (pasteHandler (generalOptions props v e)) as [s|content].
  - match goal with |- context [addActiveFormats _ ?a (<[_ := ?c]> _)] =>
      destruct (create_then_addActiveFormats c a h value v Hv)
        as (pasted & -> & Hvalue & _) end.
    rewrite lookup_insert_eq. simpl. rewrite Hvalue. simpl.
    intros [= <- <-]. eexists [], [_].
    split; [done|]. split; [by left|]. split; [eauto|]. eauto.
  - destruct (0 <? Z.of_nat (length content)); intros [= <- <-].
    + exists [], (if onReplace props && isEmpty v
                  then [OnReplace content
                          (Some (Z.of_nat (length content) - 1)) (Some (-1))]
                  else splitValue props v content).
      split; [done|]. split; [by left|]. split; [|by left].
      destruct (onReplace props && isEmpty v); [eauto 10|].
      destruct (splitValue_cases props v content) as [->|(bs & i & p & ->)];
        eauto 10.
    + exists [], []. split; [done|]. split; [by left|]. split; by left.
Qed.

(** X18.  After a general paste that the parser turns into blocks, on a
    host with [onReplace] and [onSplit], the host is asked once to replace
    the block, to select the last pasted block and to put the caret at its
    end, whether the Value was empty (the pasted blocks replace it) or not
    (they are split in). *)
Theorem onPaste_selects_last_block props value e h v content onSplit_ :
  h !! value = Some v →
  isInternal e = false →
  pastePlainText props = false →
  isFilePaste e = false →
  pasteHandler (generalOptions props v e) = inr content →
  content ≠ [] →
  onReplace props = true →
  onSplit props = Some onSplit_ →
  ∃ blocks indexToSelect,
    onPaste props value e h
    = Some ([OnReplace blocks (Some indexToSelect) (Some (-1))], h)
    ∧ 0 ≤ indexToSelect < Z.of_nat (length blocks)
    ∧ blocks !! Z.to_nat indexToSelect = last content
    ∧ (isEmpty v = true → blocks = content).
Proof.
  intros Hv Hint Hplain Hfile Hcontent Hne Hr Hs. unfold onPaste.
  rewrite Hint, Hplain. fold (isFilePaste e). rewrite Hfile, Hv. simpl.
  fold (generalOptions props v e). rewrite Hcontent, Hr.
  assert (0 < length content)%nat by (destruct content; simpl; [done|lia]).
  replace (0 <? Z.of_nat (length content)) with true by (symmetry; lia).
  destruct (isEmpty v) eqn:Hempty; simpl.
  - eexists _, _. split; [reflexivity|]. split; [lia|]. split; [|done].
    rewrite last_lookup. f_equal. lia.
  - rewrite (splitValue_eq props v content onSplit_ Hr Hs).
    rewrite bool_decide_eq_true_2 by done.
    eexists _, _. split; [reflexivity|].
    set (beforeUnit := if _ && true then [] else [_]).
    assert (length beforeUnit ≤ 1)%nat
      by (unfold beforeUnit; destruct (isEmpty _ && true); simpl; lia).
    rewrite !length_app. split; [lia|]. split; [|done].
    match goal with |- (_ ++ _ ++ ?afterUnit) !! _ = _ =>
      rewrite <- (lookup_last_of_middle beforeUnit content afterUnit) by done
    end.
    f_equal. lia.
Qed.

(** ** More on the prefix matcher *)

Lemma trimStart_head (s : jsstring) (c : N) :
  head (JsString.trimStart s) = Some c → JsString.isWhiteSpace c = false.
Proof.
  induction s as [|c0 s IH]; [done|]. simpl.
  destruct (JsString.isWhiteSpace c0) eqn:Hws; [done|].
  simpl. by intros [= <-].
Qed.

Lemma trimStart_suffix (s : jsstring) :
  ∃ k, s = k ++ JsString.trimStart s.
Proof.
  induction s as [|c s [k IH]]; [by exists []|]. simpl.
  destruct (JsString.isWhiteSpace c).
  - exists (c :: k). simpl. by f_equal.
  - by exists [].
Qed.

Lemma trimEnd_prefix (s : jsstring) :
  ∃ k, s = JsString.trimEnd s ++ k.
Proof.
  destruct (trimStart_suffix (reverse s)) as [k Hk].
  exists (reverse k). unfold JsString.trimEnd.
  rewrite <- reverse_app, <- Hk. by rewrite reverse_involutive.
Qed.

(** [trim] leaves no white space at either end. *)
Lemma trim_ends (s : jsstring) (c : N) :
  head (JsString.trim s) = Some c ∨ last (JsString.trim s) = Some c →
  JsString.isWhiteSpace c = false.
Proof.
  unfold JsString.trim. intros [Hhead|Hlast].
  - destruct (trimEnd_prefix (JsString.trimStart s)) as [k Hk].
    apply (trimStart_head s). rewrite Hk.
    destruct (JsString.trimEnd (JsString.trimStart s)); [done|]. done.
  - unfold JsString.trimEnd in Hlast. rewrite last_reverse in Hlast.
    by apply trimStart_head in Hlast.
Qed.

(** X19.  [inputRule] does nothing when the caret is at offset 0 or beyond
    the end of the text: there is no character before the caret to be a
    space, also when the text itself ends in a space. *)
Theorem inputRule_caret_out_of_text props v (valueToFormat : Value → Content) :
  start v = 0 ∨ JsString.length (text v) < start v →
  inputRule props v valueToFormat = [].
Proof.
  intros Hcaret. unfold inputRule. destruct (onReplace props); [|done].
  simpl.
  assert (Hslice : JsString.slice (text v) (start v - 1) (start v) = []).
  { unfold JsString.slice, JsString.relative.
    assert (0 ≤ JsString.length (text v)) by (unfold JsString.length; lia).
    destruct Hcaret as [->|Hbeyond].
    - simpl. replace (Z.to_nat _) with 0%nat by lia. done.
    - destruct (start v - 1 <? 0) eqn:?; [lia|].
      destruct (start v <? 0) eqn:?; [lia|].
      replace (Z.to_nat (Z.max _ 0)) with 0%nat by lia. done. }
  by rewrite Hslice.
Qed.

(** X20.  When [inputRule] fires, it has found a registered prefix
    transform whose prefix is the trimmed text before the caret, and it
    calls [onReplace] with the one block of that transform and marks the
    change automatic.  Such a prefix has no white space at its start or end:
    a transform registered with a prefix that begins or ends with white
    space never fires. *)
Theorem inputRule_fires_for_trimmed_prefix props v
    (valueToFormat : Value → Content) :
  inputRule props v valueToFormat ≠ [] →
  ∃ prefix transform,
    PrefixTransform prefix transform ∈ getBlockTransforms_from
    ∧ prefix = JsString.trim (JsString.slice (text v) 0 (start v))
    ∧ inputRule props v valueToFormat
      = [OnReplace
           [transform
              (valueToFormat
                 (slice v (start v) (JsString.length (text v))))]
           None None;
         MarkAutomaticChange]
    ∧ onReplace props = true
    ∧ ∀ c, head prefix = Some c ∨ last prefix = Some c →
           JsString.isWhiteSpace c = false.
Proof.
  unfold inputRule. destruct (onReplace props); [|done]. simpl.
  destruct (negb _); [done|]. unfold findTransform.
  destruct (find _ _) as [t|] eqn:Hfind; [|done].
  apply find_some in Hfind as [Hin Hmatch].
  apply filter_In in Hin as [Hin _].
  destruct t as [|prefix transform|]; try done. intros _.
  apply bool_decide_eq_true in Hmatch.
  exists prefix, transform. split; [by apply list_elem_of_In|].
  split; [done|]. split; [done|]. split; [done|].
  intros c. rewrite <- Hmatch. apply trim_ends.
Qed.

End PasteMore.

(** ** The further properties on the reference host *)

Section MoreExamples.

Import Demo.

Lemma addActiveFormats_fills_holes_witness :
  addActiveFormats 1%positive [] (heapOf (plain (str "ab")))
  = heapOf (plain (str "ab"))
  ∧ ∃ v',
      addActiveFormats 1%positive [bold] (heapOf (plain (str "ab")))
        !! 1%positive = Some v'
      ∧ formats v' = [Some [bold]; Some [bold]]
      ∧ None ∉ formats v'.
Proof.
  destruct (addActiveFormats_fills_holes 1%positive [bold]
              (heapOf (plain (str "ab"))) (plain (str "ab")) eq_refl)
    as [Hnil Hfill].
  split; [exact Hnil|].
  destruct (Hfill ltac:(discriminate)) as (v' & Hl & _ & _ & _ & Hf & Hn).
  exists v'. split; [exact Hl|]. split; [exact Hf|exact Hn].
Defined.

Lemma getMultilineTag_range_witness :
  getMultilineTag (MultilineString (str "li")) = Some (str "li")
  ∧ isTruthy (MultilineString (str "div")) = true
  ∧ getMultilineTag (MultilineString (str "div")) = None.
Proof.
  destruct (getMultilineTag_range (MultilineString (str "li")))
    as (_ & Hli & _ & _ & Hother).
  split; [apply Hli; reflexivity|].
  apply Hother; discriminate.
Defined.

Lemma getAllowedFormats_hasFormats_witness :
  hasFormats (getAllowedFormats None (Some []) false).1 = false
  ∧ ∃ names,
      (getAllowedFormats None (Some [str "bold"; str "italic"]) false).1
      = Some names
      ∧ ∀ name, name ∈ names → take 5 name = str "core/".
Proof.
  split.
  - apply (proj1 (getAllowedFormats_hasFormats None (Some []) false)).
    right. right. split; reflexivity.
  - destruct (proj1 (proj2 (proj2 (getAllowedFormats_hasFormats None
                (Some [str "bold"; str "italic"]) false))))
      as (names & Hnames & _ & Hcore).
    { discriminate. }
    exists names. split; [exact Hnames|exact Hcore].
Defined.

(** The selection starts in block 7 and ends in block 9: the RichText of
    block 7 is selected and is given both offsets. *)
Lemma selector_selection_witness :
  (selector None startPoint endPoint 7%nat "content"%string).2 = Some true
  ∧ (selector None startPoint endPoint 7%nat "content"%string).1
    = (Some 3, Some 5)
  ∧ (selector (Some false) startPoint endPoint 7%nat "content"%string).2
    = None.
Proof.
  split; [reflexivity|]. split.
  - apply (proj1 (proj2 (selector_selection None startPoint endPoint
             7%nat "content"%string))). reflexivity.
  - apply (proj1 (proj2 (proj2 (selector_selection (Some false) startPoint
             endPoint 7%nat "content"%string)))). reflexivity.
Defined.

(** An empty list: one empty item is rendered. *)
Lemma Content_renders_witness :
  ∃ html,
    (html = str "<p></p>" ∨ html = str "<li></li>")
    ∧ (RichText_Content (fun _ : list nat => []) (StringValue [])
         (Some (str "ul")) (MultilineString (str "li"))
         ({["format" := "string"]} : gmap string string)
       = RawHTML html
       ∨ ∃ tag passed,
           RichText_Content (fun _ : list nat => []) (StringValue [])
             (Some (str "ul")) (MultilineString (str "li"))
             ({["format" := "string"]} : gmap string string)
           = TagElement tag passed (RawHTML html)
           ∧ passed !! "format" = None).
Proof.
  destruct (Content_renders (fun _ : list nat => []) (StringValue [])
              (Some (str "ul")) (MultilineString (str "li"))
              ({["format" := "string"]} : gmap string string))
    as (html & Hshape & _ & _ & Hempty & _).
  exists html. split.
  - apply Hempty; [reflexivity|]. by eexists.
  - destruct Hshape as [Hraw|(tag & passed & Heq & _ & Hformat & _)].
    + left. exact Hraw.
    + right. exists tag, passed. split; [exact Heq|exact Hformat].
Defined.

Lemma splitValue_selection_witness :
  ∃ blocks indexToSelect initialPosition,
    splitValue fullProps (caretAt (str "ab") 1)
      [MiddleBlock; PastedBlock BLOCKS (str "x")]
    = [OnReplace blocks (Some indexToSelect) (Some initialPosition)]
    ∧ 0 ≤ indexToSelect < Z.of_nat (length blocks)
    ∧ initialPosition = -1
    ∧ blocks !! Z.to_nat indexToSelect = Some (PastedBlock BLOCKS (str "x")).
Proof.
  destruct (splitValue_selection fullProps (caretAt (str "ab") 1)
              [MiddleBlock; PastedBlock BLOCKS (str "x")] SplitBlock
              eq_refl eq_refl)
    as (blocks & i & p & Heq & Hrange & Hpaste & _).
  destruct (Hpaste ltac:(discriminate)) as (Hp & Hlast & _).
  exists blocks, i, p. split; [exact Heq|]. split; [exact Hrange|].
  split; [exact Hp|exact Hlast].
Defined.


Lemma onKeyDown_intercepts_witness :
  _onKeyDown fullProps false id emptyValue (consumed ENTER) = []
  ∧ _onKeyDown fullProps false id emptyValue (keyEvent 65) = []
  ∧ _onKeyDown fullProps false id emptyValue (keyEvent ENTER) ≠ [].
Proof.
  split; [|split].
  - apply (proj1 (proj2 (onKeyDown_intercepts fullProps false id emptyValue
             (consumed ENTER)))). reflexivity.
  - apply (proj1 (proj2 (proj2 (onKeyDown_intercepts fullProps false id
             emptyValue (keyEvent 65))))); discriminate.
  - apply (proj2 (proj2 (proj2 (onKeyDown_intercepts fullProps false id
             emptyValue (keyEvent ENTER))))); reflexivity.
Defined.

Lemma onKeyDown_shape_witness :
  (∃ transformPart branch,
     _onKeyDown fullProps false id emptyValue (keyEvent ENTER)
     = PreventDefault :: transformPart ++ branch
     ∧ (length transformPart ≤ 2)%nat ∧ (length branch ≤ 1)%nat)
  ∧ ∀ s,
      s ∈ _onKeyDown fullProps false id emptyValue (keyEvent BACKSPACE) →
      s = PreventDefault
      ∨ ∃ forward, s = OnMerge forward ∨ s = OnRemove forward.
Proof.
  split.
  - destruct (proj1 (onKeyDown_shape fullProps false id emptyValue
                (keyEvent ENTER)) eq_refl eq_refl)
      as (t & b & Heq & Ht & Hb).
    exists t, b. split; [exact Heq|]. split.
    + destruct Ht as [->|[block ->]]; simpl; lia.
    + destruct Hb as [[-> _]|[[v' ->]|[->|(bs & i & p & ->)]]]; simpl; lia.
  - apply (proj2 (onKeyDown_shape fullProps false id emptyValue
             (keyEvent BACKSPACE))). discriminate.
Defined.

(** Enter on the empty line of a list: the block is split around the
    block of the middle hook. *)
Lemma enter_multiline_witness :
  _onKeyDown multilineProps false id emptyValue (keyEvent ENTER)
  = [PreventDefault;
     OnReplace [SplitBlock (str "") true; MiddleBlock] (Some 1) (Some 0)].
Proof.
  destruct (enter_multiline multilineProps false id emptyValue
              (keyEvent ENTER) eq_refl eq_refl eq_refl)
    as (branch & Hout & _ & Hsplit & _ & _).
  destruct (Hsplit eq_refl eq_refl eq_refl) as [Hbranch _].
  rewrite Hout, Hbranch. reflexivity.
Defined.

Lemma disableLineBreaks_no_change_witness :
  disableLineBreaks noLineBreaksProps = true
  ∧ isTruthy (multiline noLineBreaksProps) = false
  ∧ ∀ v',
      OnChange v'
        ∉ _onKeyDown noLineBreaksProps false id (caretAt (str "ab") 1)
            (keyEvent ENTER).
Proof.
  split; [reflexivity|]. split; [reflexivity|].
  apply (disableLineBreaks_no_change noLineBreaksProps false id
           (caretAt (str "ab") 1) (keyEvent ENTER) eq_refl).
  right. reflexivity.
Defined.

Lemma onPaste_internal_witness :
  ∃ pasted,
    onPaste fullProps 1%positive (internal (str "xy"))
      (heapOf (caretAt (str "ab") 1))
    = Some ([OnChange (insert (caretAt (str "ab") 1) (inl pasted))],
            <[fresh (dom (heapOf (caretAt (str "ab") 1))) := pasted]>
              (heapOf (caretAt (str "ab") 1)))
    ∧ text pasted = str "xy"
    ∧ ∀ i, (i < 2)%nat → formatsAt (formats pasted) i = [bold].
Proof.
  destruct (onPaste_internal fullProps 1%positive (internal (str "xy"))
              (heapOf (caretAt (str "ab") 1)) (caretAt (str "ab") 1)
              eq_refl eq_refl)
    as (pasted & Heq & Ht & _ & _ & _ & Hat).
  exists pasted. split; [exact Heq|]. split; [exact Ht|].
  intros i Hi. rewrite (Hat i Hi).
  destruct i as [|[|i]]; [reflexivity|reflexivity|lia].
Defined.

(** Bold is active, and the plain text is inserted without it. *)
Lemma onPaste_plain_text_witness :
  fst <$> onPaste plainTextProps 1%positive boldPaste
            (heapOf (caretAt (str "ab") 1))
  = Some [OnChange {| formats := [None; None; None];
                      text := str "axb"; start := 2; end_ := 2 |}].
Proof.
  rewrite (onPaste_plain_text plainTextProps 1%positive boldPaste
             (heapOf (caretAt (str "ab") 1)) (caretAt (str "ab") 1)
             eq_refl eq_refl eq_refl).
  reflexivity.
Defined.

Lemma onPaste_inline_witness :
  ∃ valueToInsert,
    fst <$> onPaste noReplaceProps 1%positive (general (str "[gallery]"))
              (heapOf emptyValue)
    = Some [OnChange (insert emptyValue (inl valueToInsert))]
    ∧ text valueToInsert = str "[gallery]".
Proof.
  destruct (@onPaste_inline _ _ _ demoImports noReplaceProps 1%positive
              (general (str "[gallery]")) (heapOf emptyValue) emptyValue
              (str "[gallery]") eq_refl eq_refl eq_refl eq_refl
              ltac:(reflexivity))
    as (valueToInsert & Heq & Ht & _).
  exists valueToInsert. split; [|exact Ht]. rewrite Heq. reflexivity.
Defined.

(** With a parser that finds no block: a general paste does nothing, a
    file paste into the empty Value replaces the block by no block. *)
Lemma onPaste_empty_block_list_witness :
  @onPaste _ _ _ emptyParserImports fullProps 1%positive
    (general (str "x")) (heapOf emptyValue) = Some ([], heapOf emptyValue)
  ∧ @onPaste _ _ _ emptyParserImports fullProps 1%positive
      (filesOnly ["a.png"%string]) (heapOf emptyValue)
    = Some ([ConsoleLog ["a.png"%string]; OnReplace [] None None],
            heapOf emptyValue).
Proof.
  split.
  - apply (proj1 (@onPaste_empty_block_list _ _ _ emptyParserImports
             fullProps 1%positive (general (str "x")) (heapOf emptyValue)
             emptyValue eq_refl eq_refl eq_refl)); reflexivity.
  - apply (proj2 (@onPaste_empty_block_list _ _ _ emptyParserImports
             fullProps 1%positive (filesOnly ["a.png"%string])
             (heapOf emptyValue) emptyValue eq_refl eq_refl eq_refl));
      reflexivity.
Defined.

Lemma onPaste_one_call_witness :
  ∃ log call : list (Signal DemoBlock string),
    [OnReplace [PastedBlock BLOCKS (str "[gallery]")] (Some 0) (Some (-1))]
    = log ++ call
    ∧ (call = []
       ∨ (∃ v', call = [OnChange v'])
       ∨ ∃ blocks i p, call = [OnReplace blocks i p]).
Proof.
  destruct (@onPaste_one_call _ _ _ demoImports fullProps 1%positive
              (general (str "[gallery]")) (heapOf emptyValue) emptyValue
              [OnReplace [PastedBlock BLOCKS (str "[gallery]")]
                 (Some 0) (Some (-1))]
              (heapOf emptyValue) eq_refl ltac:(reflexivity))
    as (log & call & Heq & _ & Hcall & _).
  exists log, call. split; [exact Heq|exact Hcall].
Defined.

Lemma onPaste_selects_last_block_witness :
  ∃ blocks indexToSelect,
    onPaste fullProps 1%positive (general (str "https://example.com"))
      (heapOf (caretAt (str "ab") 1))
    = Some ([OnReplace blocks (Some indexToSelect) (Some (-1))],
            heapOf (caretAt (str "ab") 1))
    ∧ blocks !! Z.to_nat indexToSelect
      = Some (PastedBlock AUTO (str "https://example.com")).
Proof.
  destruct (@onPaste_selects_last_block _ _ _ demoImports fullProps 1%positive
              (general (str "https://example.com"))
              (heapOf (caretAt (str "ab") 1)) (caretAt (str "ab") 1)
              [PastedBlock AUTO (str "https://example.com")] SplitBlock
              eq_refl eq_refl eq_refl eq_refl ltac:(reflexivity)
              ltac:(discriminate) eq_refl eq_refl)
    as (blocks & i & Heq & _ & Hlast & _).
  exists blocks, i. split; [exact Heq|exact Hlast].
Defined.

(** The text is "* " and the caret is at offset 0. *)
Lemma inputRule_caret_out_of_text_witness :
  inputRule fullProps (caretAt (str "* ") 0) text = []
  ∧ inputRule fullProps (caretAt (str "* ") 3) text = [].
Proof.
  split.
  - apply (inputRule_caret_out_of_text fullProps (caretAt (str "* ") 0) text).
    left. reflexivity.
  - apply (inputRule_caret_out_of_text fullProps (caretAt (str "* ") 3) text).
    right. reflexivity.
Defined.

Lemma inputRule_fires_for_trimmed_prefix_witness :
  ∃ prefix transform,
    PrefixTransform prefix transform
      ∈ (getBlockTransforms_from : list (Transform DemoBlock jsstring))
    ∧ prefix = str "*"
    ∧ inputRule fullProps (caretAt (str "* x") 2) text
      = [OnReplace [transform (str "x")] None None; MarkAutomaticChange].
Proof.
  destruct (@inputRule_fires_for_trimmed_prefix _ _ _ demoImports fullProps
              (caretAt (str "* x") 2) text ltac:(vm_compute; discriminate))
    as (prefix & transform & Hin & Hprefix & Hout & _).
  exists prefix, transform. split; [exact Hin|]. split; [exact Hprefix|].
  exact Hout.
Defined.

End MoreExamples.
